(** * SCG prototype: SMA crossover signal, drawdown guardrail, trading cycle

    A shallow embedding of [strategy.py] and [main.py] (and of the risk-state
    writes of [streamlit_app.py]).

    - A Python [float] (and a [numpy.float64] of a pandas column) is an IEEE
      binary64 number: Rocq's primitive [float], whose operations the kernel
      evaluates and whose meaning [FloatAxioms] gives through [SpecFloat].
      [nan] is both the result of an undefined operation and the "no value"
      of a pandas column.
    - A [DataFrame] is a finite map from column names to columns.
    - The risk-state file is explicit state, threaded through every operation
      that loads and saves it.
    - A Python exception is the [Raise] branch of a small error monad. *)

From Stdlib Require Import Floats ZArith Lia Bool.
From stdpp Require Import base option list strings gmap pretty.

Set Warnings "-inexact-float".

(** ** Python floats *)

Module PyFloat.
Local Open Scope float_scope.

(** The builtin [max(a, b)] keeps its first argument unless the second
    compares greater ([b > a]); a [nan] second argument is never chosen. *)
Definition max (a b : float) : float := if a <? b then b else a.

(** [float(n)] of a small non-negative [int]. *)
Definition of_nat (n : nat) : float := of_uint63 (Uint63.of_Z (Z.of_nat n)).

(** [int(x)]: truncation towards zero. [int] raises [ValueError] on [nan]
    and [OverflowError] on an infinity: both are [None] here. *)
Definition to_int (x : float) : option Z :=
  match Prim2SF x with
  | S754_zero _ => Some 0%Z
  | S754_finite s m e =>
      let a := match e with
               | Zneg _ => Z.shiftr (Zpos m) (- e)
               | _ => Z.shiftl (Zpos m) e
               end in
      Some (if s then (- a)%Z else a)
  | S754_infinity _ | S754_nan => None
  end.

(** [r] carries the sign [s], or is [nan]. *)
Definition signed (s : bool) (r : spec_float) : Prop :=
  match r with
  | S754_nan => True
  | S754_zero s' | S754_infinity s' | S754_finite s' _ _ => s' = s
  end.

(** [sum(xs)], accumulated from the left. *)
Definition sum (xs : list float) : float := foldl add 0 xs.

End PyFloat.

(** ** Python exceptions *)

Module Py.

Inductive exn : Type :=
| KeyError (key : string)
| IndexError
| ValueError
| OverflowError
| APIError
| ConnectionError.

Inductive result (A : Type) : Type :=
| Ok (a : A)
| Raise (e : exn).

Arguments Ok {A} a.
Arguments Raise {A} e.

#[export] Instance result_ret : MRet result := fun A a => Ok a.

#[export] Instance result_bind : MBind result := fun A B k m =>
  match m with
  | Ok a => k a
  | Raise e => Raise e
  end.

End Py.

Export Py.

(** ** strategy.py *)

Module Strategy.
Local Open Scope float_scope.

(** A [DataFrame]: its columns by name. All columns of one frame have the
    length of the frame. *)
Abbreviation DataFrame := (gmap string (list float)).

(** [df[col]] *)
Definition getitem (df : DataFrame) (col : string) : result (list float) :=
  match df !! col with
  | Some s => Ok s
  | None => Raise (KeyError col)
  end.

(** [s.iloc[i]], [i] counted from the end when negative. *)
Definition iloc (s : list float) (i : Z) : result float :=
  let n := Z.of_nat (length s) in
  let j := if (i <? 0)%Z then (n + i)%Z else i in
  if (0 <=? j)%Z && (j <? n)%Z
  then match s !! Z.to_nat j with
       | Some x => Ok x
       | None => Raise IndexError
       end
  else Raise IndexError.

(** [s.rolling(w).mean()]: position [i] holds the mean of the [w] values
    ending at [i], and [nan] while fewer than [w] values are there. The sum
    is taken from the left; pandas keeps a compensated running sum, which
    can differ from it in the last bits. A [nan] in the window gives [nan]
    either way. *)
Definition rolling_mean (w : nat) (s : list float) : list float :=
  imap (fun i _ =>
          if decide (w <= S i)%nat
          then PyFloat.sum (take w (drop (S i - w) s)) / PyFloat.of_nat w
          else nan) s.

Definition compute_smas (df : DataFrame) (fast slow : nat) : result DataFrame :=
  close ← getitem df "close";
  let df := <["SMA" +:+ pretty fast := rolling_mean fast close]> df in
  close ← getitem df "close";
  let df := <["SMA" +:+ pretty slow := rolling_mean slow close]> df in
  mret df.

Definition latest_signal_reason (df : DataFrame) (fast slow : nat)
  : result (string * string * float) :=
  let fcol := "SMA" +:+ pretty fast in
  let scol := "SMA" +:+ pretty slow in
  s ← getitem df scol;
  last ← iloc s (-1);
  if is_nan last then mret ("none", "Not enough data", 0)
  else
    fs ← getitem df fcol; prev_fast ← iloc fs (-2);
    ss ← getitem df scol; prev_slow ← iloc ss (-2);
    fs ← getitem df fcol; curr_fast ← iloc fs (-1);
    ss ← getitem df scol; curr_slow ← iloc ss (-1);
    let eps := 1e-9 in
    let confidence := abs (curr_fast - curr_slow) / PyFloat.max (abs curr_slow) eps in
    if (prev_fast <=? prev_slow) && (curr_slow <? curr_fast) then
      mret ("buy",
            "BUY — SMA(" +:+ pretty fast +:+ ") crossed above SMA(" +:+ pretty slow +:+ ")",
            confidence)
    else if (prev_slow <=? prev_fast) && (curr_fast <? curr_slow) then
      mret ("sell",
            "SELL — SMA(" +:+ pretty fast +:+ ") crossed below SMA(" +:+ pretty slow +:+ ")",
            confidence)
    else
      let regime := if curr_slow <? curr_fast then "above"
                    else if curr_fast <? curr_slow then "below" else "equal" in
      mret ("none",
            "HOLD — SMA(" +:+ pretty fast +:+ ") is " +:+ regime +:+ " SMA("
              +:+ pretty slow +:+ "); no crossover",
            confidence).

(** *** Risk state *)

(** The JSON object of the risk-state file. [None] in a numeric field is
    JSON [null]. Every object the program writes has these four keys. *)
Record RiskState : Type := {
  peak_equity : option float;
  auto_paused : bool;
  last_equity : option float;
  user_paused : bool
}.

(** The risk-state file: [None] when it does not exist or does not parse. *)
Abbreviation RiskFile := (option RiskState).

Definition load_risk_state (file : RiskFile) : RiskState :=
  match file with
  | Some state => state
  | None => {| peak_equity := None; auto_paused := false;
               last_equity := None; user_paused := false |}
  end.

Definition save_risk_state (state : RiskState) (file : RiskFile) : RiskFile :=
  Some state.

(** *** The detector of the trading loop *)

Definition sma_cross_signal (df : DataFrame) (fast slow : nat)
  : result (option string) :=
  let fcol := "sma_" +:+ pretty fast in
  let scol := "sma_" +:+ pretty slow in
  close ← getitem df "close";
  let df := <[fcol := rolling_mean fast close]> df in
  close ← getitem df "close";
  let df := <[scol := rolling_mean slow close]> df in
  s ← getitem df scol;
  last ← iloc s (-1);
  if is_nan last then mret None
  else
    fs ← getitem df fcol; prev_fast ← iloc fs (-2);
    ss ← getitem df scol; prev_slow ← iloc ss (-2);
    fs ← getitem df fcol; curr_fast ← iloc fs (-1);
    ss ← getitem df scol; curr_slow ← iloc ss (-1);
    if (prev_fast <=? prev_slow) && (curr_slow <? curr_fast) then mret (Some "buy")
    else if (prev_slow <=? prev_fast) && (curr_fast <? curr_slow) then mret (Some "sell")
    else mret (Some "hold").

Definition describe_sma_signal (df : DataFrame) (fast slow : nat)
  : result (string * float) :=
  let fcol := "sma_" +:+ pretty fast in
  let scol := "sma_" +:+ pretty slow in
  s ← getitem df scol;
  last ← iloc s (-1);
  if is_nan last then mret ("Not enough data", 0)
  else
    fs ← getitem df fcol; prev_fast ← iloc fs (-2);
    ss ← getitem df scol; prev_slow ← iloc ss (-2);
    fs ← getitem df fcol; curr_fast ← iloc fs (-1);
    ss ← getitem df scol; curr_slow ← iloc ss (-1);
    let eps := 1e-9 in
    let confidence := abs (curr_fast - curr_slow) / PyFloat.max (abs curr_slow) eps in
    if (prev_fast <=? prev_slow) && (curr_slow <? curr_fast) then
      mret ("BUY — SMA(" +:+ pretty fast +:+ ") crossed above SMA(" +:+ pretty slow +:+ ")",
            confidence)
    else if (prev_slow <=? prev_fast) && (curr_fast <? curr_slow) then
      mret ("SELL — SMA(" +:+ pretty fast +:+ ") crossed below SMA(" +:+ pretty slow +:+ ")",
            confidence)
    else
      let regime := if curr_slow <? curr_fast then "above"
                    else if curr_fast <? curr_slow then "below" else "equal" in
      mret ("HOLD — SMA(" +:+ pretty fast +:+ ") is " +:+ regime +:+ " SMA("
              +:+ pretty slow +:+ "); no crossover",
            confidence).

End Strategy.

(** ** main.py *)

Module Main.
Import Strategy.
Local Open Scope float_scope.

Definition SYMBOL : string := "AAPL".
Definition QTY : Z := 1000.
Definition FAST : nat := 10.
Definition SLOW : nat := 20.
Definition DRY_RUN : bool := false.
Definition MAX_DD_PCT : float := 0.05.

(** The body of [update_drawdown_and_guardrail], the module constant
    [MAX_DD_PCT] taken as the argument [max_dd_pct]. [acct_equity] is the
    value of [float(acct_equity)]. *)
Definition update_drawdown_and_guardrail_at
    (max_dd_pct : float) (acct_equity : float) (file : RiskFile)
  : (bool * float * float) * RiskFile :=
  let state := load_risk_state file in
  let eq := acct_equity in
  let peak := peak_equity state in
  let peak := match peak with
              | None => eq
              | Some peak => if peak <? eq then eq else peak
              end in
  let dd_pct := if peak =? 0 then 0 else PyFloat.max 0 ((peak - eq) / peak) in
  let auto_paused := auto_paused state in
  let auto_paused := if max_dd_pct <=? dd_pct then true else auto_paused in
  let state := {| peak_equity := Some peak; last_equity := Some eq;
                  auto_paused := auto_paused;
                  user_paused := user_paused state |} in
  ((auto_paused, dd_pct, peak), save_risk_state state file).

Definition update_drawdown_and_guardrail
  : float -> RiskFile -> (bool * float * float) * RiskFile :=
  update_drawdown_and_guardrail_at MAX_DD_PCT.

Definition clear_auto_pause (file : RiskFile) : RiskFile :=
  let state := load_risk_state file in
  let state := {| peak_equity := peak_equity state; last_equity := last_equity state;
                  auto_paused := false;
                  user_paused := user_paused state |} in
  save_risk_state state file.

Definition is_user_paused (file : RiskFile) : bool :=
  user_paused (load_risk_state file).

(** [position_qty]: [reply] is what [float(api.get_position(symbol).qty)]
    gives, [Raise] when the request or the conversion raises. *)
Definition position_qty (reply : result float) : Z :=
  match reply with
  | Ok qty =>
      match PyFloat.to_int qty with
      | Some n => n
      | None => 0
      end
  | Raise _ => 0
  end.

(** What one pass of the [while] loop of [loop] does after its prints. *)
Inductive skip : Type :=
| UserPause
| Guardrail
| NoSignal.

Inductive outcome : Type :=
| Skipped (why : skip)
| Reported (action : string) (qty_now : Z)
| Placed (side : string) (qty : Z) (reason : string) (confidence : float)
| Failed (e : exn).

Definition should_buy (signal : option string) (qty_now : Z) : bool :=
  bool_decide (signal = Some "buy") && (qty_now <=? 0)%Z.

Definition should_sell (signal : option string) (qty_now : Z) : bool :=
  bool_decide (signal = Some "sell") && (0 <? qty_now)%Z.

(** [loop], from the manual-pause check to the order. *)
Definition trade (user_paused auto_paused : bool) (signal : option string)
    (reason : string) (confidence : float) (position : result float) : outcome :=
  if user_paused then Skipped UserPause
  else if auto_paused then Skipped Guardrail
  else
    let qty_now := position_qty position in
    let should_buy := should_buy signal qty_now in
    let should_sell := should_sell signal qty_now in
    match signal with
    | None => Skipped NoSignal
    | Some _ =>
        let action := if should_buy then "BUY"
                      else if should_sell then "SELL" else "HOLD" in
        if DRY_RUN || bool_decide (action = "HOLD") then Reported action qty_now
        else if should_buy then Placed "buy" QTY reason confidence
        else if should_sell then Placed "sell" qty_now reason confidence
        else Reported action qty_now
    end.

(** What the broker answers during one pass. *)
Record Tick : Type := {
  account_equity : result float;
  bars : result DataFrame;
  position : result float
}.

(** One pass of the [while] loop: the [try] block, an exception caught by
    its handlers ending the pass as [Failed]. *)
Definition loop_body (t : Tick) (file : RiskFile) : outcome * RiskFile :=
  match account_equity t with
  | Raise e => (Failed e, file)
  | Ok equity =>
      let '((auto_paused, dd_pct, peak), file) :=
        update_drawdown_and_guardrail equity file in
      let analysis :=
        df ← bars t;
        close ← getitem df "close";
        let df := <["sma_" +:+ pretty FAST := rolling_mean FAST close]> df in
        close ← getitem df "close";
        let df := <["sma_" +:+ pretty SLOW := rolling_mean SLOW close]> df in
        signal ← sma_cross_signal df FAST SLOW;
        '(reason, confidence) ← describe_sma_signal df FAST SLOW;
        mret (signal, reason, confidence) in
      match analysis with
      | Raise e => (Failed e, file)
      | Ok (signal, reason, confidence) =>
          (trade (is_user_paused file) auto_paused signal reason confidence
                 (position t), file)
      end
  end.

(** The action a pass resolves to. A pass left by [continue] before
    [action] is assigned, or ended by an exception, trades nothing: it
    holds. *)
Definition action_of (o : outcome) : string :=
  match o with
  | Skipped _ => "HOLD"
  | Reported action _ => action
  | Placed side _ _ _ => if bool_decide (side = "buy") then "BUY" else "SELL"
  | Failed _ => "HOLD"
  end.

(** The order a pass submits. *)
Definition order_of (o : outcome) : option (string * Z) :=
  match o with
  | Placed side qty _ _ => Some (side, qty)
  | _ => None
  end.

End Main.

(** ** streamlit_app.py: the writes of the dashboard to the risk state *)

Module Dashboard.
Import Strategy.
Local Open Scope float_scope.

(** The Start ([paused = false]) and Stop ([paused = true]) buttons. *)
Definition set_user_paused (paused : bool) (file : RiskFile) : RiskFile :=
  let state := load_risk_state file in
  let state := {| peak_equity := peak_equity state; last_equity := last_equity state;
                  auto_paused := auto_paused state;
                  user_paused := paused |} in
  save_risk_state state file.

(** The account snapshot of every run of the script, run on its own: no
    write of the trading loop falls between its load and its save. *)
Definition snapshot (equity : float) (file : RiskFile) : RiskFile :=
  let state := load_risk_state file in
  let peak := peak_equity state in
  let peak := match peak with
              | None => equity
              | Some peak => if peak <? equity then equity else peak
              end in
  let state := {| peak_equity := Some peak; last_equity := Some equity;
                  auto_paused := auto_paused state;
                  user_paused := user_paused state |} in
  save_risk_state state file.

(** The signal panel: [compute_smas], then [latest_signal_reason]. *)
Definition latest_signal (df : DataFrame) (fast slow : nat)
  : result (string * string * float) :=
  df ← compute_smas df fast slow;
  latest_signal_reason df fast slow.

End Dashboard.

(** ** The crossover rule, in the words of its description *)

Module Crossover.
Local Open Scope float_scope.

(** [prevFast <= prevSlow and currFast > currSlow] *)
Definition crossed_above (prevFast prevSlow currFast currSlow : float) : bool :=
  (prevFast <=? prevSlow) && (currSlow <? currFast).

(** [prevFast >= prevSlow and currFast < currSlow] *)
Definition crossed_below (prevFast prevSlow currFast currSlow : float) : bool :=
  (prevSlow <=? prevFast) && (currFast <? currSlow).

Definition regime (currFast currSlow : float) : string :=
  if currSlow <? currFast then "above"
  else if currFast <? currSlow then "below" else "equal".

(** [|currFast - currSlow| / max(|currSlow|, 1e-9)] *)
Definition separation (currFast currSlow : float) : float :=
  abs (currFast - currSlow) / PyFloat.max (abs currSlow) 1e-9.

Definition buy_reason (fast slow : nat) : string :=
  "BUY — SMA(" +:+ pretty fast +:+ ") crossed above SMA(" +:+ pretty slow +:+ ")".

Definition sell_reason (fast slow : nat) : string :=
  "SELL — SMA(" +:+ pretty fast +:+ ") crossed below SMA(" +:+ pretty slow +:+ ")".

Definition hold_reason (fast slow : nat) (regime : string) : string :=
  "HOLD — SMA(" +:+ pretty fast +:+ ") is " +:+ regime +:+ " SMA("
    +:+ pretty slow +:+ "); no crossover".

(** What the three readers of the last two rows return once the latest slow
    average is there. *)
Definition verdict (fast slow : nat) (pf ps cf cs : float)
  : string * string * float :=
  if crossed_above pf ps cf cs then ("buy", buy_reason fast slow, separation cf cs)
  else if crossed_below pf ps cf cs then ("sell", sell_reason fast slow, separation cf cs)
  else ("none", hold_reason fast slow (regime cf cs), separation cf cs).

(** The positions of a column that hold a value. *)
Definition defined_positions (s : list float) : nat :=
  length (filter (fun x => is_nan x = false) s).

End Crossover.

(** ** Histories of the risk-state file *)

Module History.
Import Strategy Main.
Local Open Scope float_scope.

(** The value of [auto_paused] a reader of the file finds. *)
Definition latched (file : RiskFile) : bool :=
  auto_paused (load_risk_state file).

(** The value of [peak_equity] a reader of the file finds. *)
Definition persisted_peak (file : RiskFile) : option float :=
  peak_equity (load_risk_state file).

(** The peak after an observation: the equity when no peak is there or the
    equity is above it. *)
Definition new_peak (peak : option float) (equity : float) : float :=
  match peak with
  | None => equity
  | Some p => if p <? equity then equity else p
  end.

(** The drawdown of an equity under a peak: 0 at the peak 0, else
    [max(0, (peak - equity) / peak)]. *)
Definition drawdown (peak equity : float) : float :=
  if peak =? 0 then 0 else PyFloat.max 0 ((peak - equity) / peak).

(** The operations of the repository that write the risk-state file. The
    "Clear Auto-Pause" button of the dashboard runs the three statements of
    [clear_auto_pause]. *)
Inductive op : Type :=
| Observe (equity : float)
| ClearAutoPause
| SetUserPaused (paused : bool)
| Snapshot (equity : float).

Definition step (max_dd_pct : float) (o : op) (file : RiskFile) : RiskFile :=
  match o with
  | Observe equity => (update_drawdown_and_guardrail_at max_dd_pct equity file).2
  | ClearAutoPause => clear_auto_pause file
  | SetUserPaused paused => Dashboard.set_user_paused paused file
  | Snapshot equity => Dashboard.snapshot equity file
  end.

(** Successive calls of [update_drawdown_and_guardrail]: what each call
    returns, and the file after the last one. *)
Fixpoint observations (max_dd_pct : float) (equities : list float) (file : RiskFile)
  : list (bool * float * float) * RiskFile :=
  match equities with
  | [] => ([], file)
  | equity :: equities =>
      let '(r, file) := update_drawdown_and_guardrail_at max_dd_pct equity file in
      let '(rs, file) := observations max_dd_pct equities file in
      (r :: rs, file)
  end.

(** The file before the first call and after each call. *)
Fixpoint observe_trace (max_dd_pct : float) (equities : list float) (file : RiskFile)
  : list RiskFile :=
  match equities with
  | [] => [file]
  | equity :: equities =>
      file :: observe_trace max_dd_pct equities
                (update_drawdown_and_guardrail_at max_dd_pct equity file).2
  end.

(** [q] is greater than or equal to [p]: greater, or the same number. An
    absent peak is below every number. *)
Definition peak_le (p q : option float) : Prop :=
  match p, q with
  | None, _ => True
  | Some _, None => False
  | Some a, Some b => (a <? b) = true \/ b = a
  end.

End History.

(** ** strategy.py: frames from bars *)

Module Bars.
Import Strategy.

(** A bar of the price feed: time, open, high, low, close, volume (a count,
    held as a float as the prices are). *)
Record Bar : Type := {
  t : Z;
  o : float;
  h : float;
  l : float;
  c : float;
  v : float
}.

(** [df_from_bars]: one row per bar; [set_index("time")] takes the time
    out of the columns (the frame keeps it as its index, which the model
    leaves out: rows are known by their position). *)
Definition df_from_bars (bars : list Bar) : DataFrame :=
  <["open" := o <$> bars]>
    (<["high" := h <$> bars]>
       (<["low" := l <$> bars]>
          (<["close" := c <$> bars]>
             (<["volume" := v <$> bars]> ∅)))).

(** [get_history_df]: [reply] is what [api.get_bars] gives. *)
Definition get_history_df (reply : result (list Bar)) : result DataFrame :=
  bars ← reply;
  mret (df_from_bars bars).

End Bars.

(** ** main.py: the backtest and the loop over many passes *)

Module Backtest.
Import Strategy Main.
Local Open Scope float_scope.

(** An entry of [signals]; [row] stands for [df.index[i]]. *)
Record Signal : Type := {
  row : nat;
  side : string;
  price : float;
  sma_fast : float;
  sma_slow : float
}.

Fixpoint foldM {A B : Type} (f : B -> A -> result B) (b : B) (xs : list A)
  : result B :=
  match xs with
  | [] => Ok b
  | x :: xs => b ← f b x; foldM f b xs
  end.

(** The body of the [for] loop of [backtest_strategy] at row [i]. The test
    [... is None] is false on every number a column holds, [nan] too. *)
Definition backtest_row (df : DataFrame) (fast slow : nat)
    (st : list Signal * Z) (i : nat) : result (list Signal * Z) :=
  let fcol := "sma_" +:+ pretty fast in
  let scol := "sma_" +:+ pretty slow in
  let '(signals, position) := st in
  ss ← getitem df scol; _ ← iloc ss (Z.of_nat i);
  fs ← getitem df fcol; prev_fast ← iloc fs (Z.of_nat i - 1);
  ss ← getitem df scol; prev_slow ← iloc ss (Z.of_nat i - 1);
  fs ← getitem df fcol; curr_fast ← iloc fs (Z.of_nat i);
  ss ← getitem df scol; curr_slow ← iloc ss (Z.of_nat i);
  close ← getitem df "close"; price ← iloc close (Z.of_nat i);
  if (prev_fast <=? prev_slow) && (curr_slow <? curr_fast) && (position <=? 0)%Z then
    mret (signals ++ [ {| row := i; side := "BUY"; price := price;
                          sma_fast := curr_fast; sma_slow := curr_slow |} ], 1%Z)
  else if (prev_slow <=? prev_fast) && (curr_fast <? curr_slow) && (0 <=? position)%Z then
    mret (signals ++ [ {| row := i; side := "SELL"; price := price;
                          sma_fast := curr_fast; sma_slow := curr_slow |} ], (-1)%Z)
  else mret (signals, position).

(** [backtest_strategy] on the frame [get_history_df] gave, the module
    constants [FAST] and [SLOW] taken as arguments: the list [signals] it
    prints. [n] is [len(df)], the length of every column. *)
Definition backtest_strategy_at (fast slow : nat) (df : DataFrame)
  : result (list Signal) :=
  close ← getitem df "close";
  let df := <["sma_" +:+ pretty fast := rolling_mean fast close]> df in
  close ← getitem df "close";
  let df := <["sma_" +:+ pretty slow := rolling_mean slow close]> df in
  let n := length close in
  '(signals, _) ← foldM (backtest_row df fast slow) ([], 0%Z) (seq slow (n - slow));
  mret signals.

Definition backtest_strategy : DataFrame -> result (list Signal) :=
  backtest_strategy_at FAST SLOW.

(** The passes of the [while] loop of [loop], one per answer of the
    broker. *)
Fixpoint run_loop (ticks : list Tick) (file : RiskFile)
  : list outcome * RiskFile :=
  match ticks with
  | [] => ([], file)
  | t :: ticks =>
      let '(o, file) := loop_body t file in
      let '(os, file) := run_loop ticks file in
      (o :: os, file)
  end.

(** No two neighbours of a list are equal. *)
Fixpoint alternating (xs : list string) : Prop :=
  match xs with
  | a :: (b :: _) as rest => a <> b /\ alternating rest
  | _ => True
  end.

End Backtest.

(** ** Words for the statements about the loop and the backtest *)

Module Traces.
Import Strategy Main Crossover History Backtest.
Local Open Scope float_scope.

(** All the writes of a list of operations, in order. *)
Definition run_ops (max_dd_pct : float) (ops : list op) (file : RiskFile)
  : RiskFile :=
  foldl (fun file o => step max_dd_pct o file) file ops.

(** The word [sma_cross_signal] answers for four values. *)
Definition cross_word (pf ps cf cs : float) : string :=
  if crossed_above pf ps cf cs then "buy"
  else if crossed_below pf ps cf cs then "sell" else "hold".

(** What a pass reads off the last two rows of the two averages. *)
Definition last_rows (F S : list float)
  : result (option string * string * float) :=
  cs ← iloc S (-1);
  if is_nan cs then mret (None, "Not enough data", 0)
  else
    pf ← iloc F (-2); ps ← iloc S (-2);
    cf ← iloc F (-1); cs ← iloc S (-1);
    mret (Some (cross_word pf ps cf cs),
          (verdict FAST SLOW pf ps cf cs).1.2, separation cf cs).

(** The equities the broker reported, pass by pass. *)
Definition readable (ticks : list Tick) : list float :=
  omap (fun t => match account_equity t with
                 | Ok equity => Some equity
                 | Raise _ => None
                 end) ticks.

(** The entry [s] of [signals] records a crossing of the averages [F] and
    [S] at a row of the frame, from the row before it. *)
Definition recorded_crossing (F S close : list float) (slow : nat) (s : Signal)
  : Prop :=
  (slow <= row s < length close)%nat
  /\ close !! row s = Some (price s)
  /\ F !! row s = Some (sma_fast s)
  /\ S !! row s = Some (sma_slow s)
  /\ exists pf ps : float,
       iloc F (Z.of_nat (row s) - 1) = Ok pf
       /\ iloc S (Z.of_nat (row s) - 1) = Ok ps
       /\ ((side s = "BUY" /\ crossed_above pf ps (sma_fast s) (sma_slow s) = true)
           \/ (side s = "SELL"
               /\ crossed_below pf ps (sma_fast s) (sma_slow s) = true)).

(** Later entries are for later rows. *)
Definition rows_increase (signals : list Signal) : Prop :=
  forall (j k : nat) (a b : Signal),
    (j < k)%nat -> signals !! j = Some a -> signals !! k = Some b ->
    (row a < row b)%nat.

(** What the [for] loop of the backtest keeps true of [signals] and
    [position] before row [i]. *)
Definition backtest_inv (F S close : list float) (slow i : nat)
    (st : list Signal * Z) : Prop :=
  alternating (side <$> st.1)
  /\ match last st.1 with
     | None => st.2 = 0%Z
     | Some s => (side s = "BUY" /\ st.2 = 1%Z) \/ (side s = "SELL" /\ st.2 = (-1)%Z)
     end
  /\ Forall (recorded_crossing F S close slow) st.1
  /\ Forall (fun s => (row s < i)%nat) st.1
  /\ rows_increase st.1.

(** What [sma_cross_signal] calls the side of a backtest signal. *)
Definition live_word (side : string) : string :=
  if bool_decide (side = "BUY") then "buy" else "sell".

End Traces.

(** * Facts *)

(** ** Python floats *)

Module PyFloatFacts.
Local Open Scope float_scope.

#[local] Abbreviation signed := PyFloat.signed.

(** *** The order of [SpecFloat], read off [SFcompare] *)

Lemma SFcompare_antisym (x y : spec_float) :
  SFcompare y x = CompOpp <$> SFcompare x y.
Proof.
  destruct x as [[]|[]| |[] m1 e1], y as [[]|[]| |[] m2 e2];
    simpl; try reflexivity.
  all: rewrite (Z.compare_antisym e1 e2);
    destruct (e1 ?= e2)%Z; simpl; try reflexivity;
    rewrite (Pos.compare_cont_antisym m1 m2 Eq); reflexivity.
Qed.

Lemma SFcompare_refl (x : spec_float) :
  SFcompare x x = match x with S754_nan => None | _ => Some Eq end.
Proof.
  destruct x as [[]|[]| |[] m e]; simpl; try reflexivity.
  all: rewrite Z.compare_refl; fold (Pos.compare m m);
    rewrite Pos.compare_refl; reflexivity.
Qed.

(** *** The order of Python floats *)

Lemma ltb_irrefl (x : float) : (x <? x) = false.
Proof.
  rewrite ltb_spec. unfold SFltb. rewrite SFcompare_refl.
  destruct (Prim2SF x); reflexivity.
Qed.

Lemma ltb_asym (x y : float) : (x <? y) = true -> (y <? x) = false.
Proof.
  rewrite !ltb_spec. unfold SFltb.
  rewrite (SFcompare_antisym (Prim2SF x) (Prim2SF y)).
  destruct (SFcompare (Prim2SF x) (Prim2SF y)) as [[]|]; simpl; congruence.
Qed.

Lemma ltb_leb (x y : float) : (x <? y) = true -> (x <=? y) = true.
Proof.
  rewrite ltb_spec, leb_spec. unfold SFltb, SFleb.
  destruct (SFcompare (Prim2SF x) (Prim2SF y)) as [[]|]; congruence.
Qed.

Lemma ltb_not_geb (x y : float) : (x <? y) = true -> (y <=? x) = false.
Proof.
  rewrite ltb_spec, leb_spec. unfold SFltb, SFleb.
  rewrite (SFcompare_antisym (Prim2SF x) (Prim2SF y)).
  destruct (SFcompare (Prim2SF x) (Prim2SF y)) as [[]|]; simpl; congruence.
Qed.

Lemma is_nan_spec (x : float) :
  is_nan x = match Prim2SF x with S754_nan => true | _ => false end.
Proof.
  unfold is_nan. rewrite FloatAxioms.eqb_spec. unfold SFeqb. rewrite SFcompare_refl.
  destruct (Prim2SF x); reflexivity.
Qed.

Lemma leb_refl (x : float) : is_nan x = false -> (x <=? x) = true.
Proof.
  rewrite is_nan_spec, leb_spec. unfold SFleb. rewrite SFcompare_refl.
  destruct (Prim2SF x); congruence.
Qed.

Lemma max_cases (a b : float) :
  (PyFloat.max a b = b /\ (a <? b) = true) \/ (PyFloat.max a b = a /\ (a <? b) = false).
Proof. unfold PyFloat.max. destruct (a <? b); auto. Qed.

Lemma SFcompare_None (x y : spec_float) :
  SFcompare x y = None -> x = S754_nan \/ y = S754_nan.
Proof.
  destruct x as [[]|[]| |[] m1 e1], y as [[]|[]| |[] m2 e2]; cbn;
    intros H; try discriminate H; auto.
Qed.

Lemma ltb_false_leb (x y : float) :
  is_nan x = false -> is_nan y = false -> (x <? y) = false -> (y <=? x) = true.
Proof.
  rewrite !is_nan_spec, ltb_spec, leb_spec. unfold SFltb, SFleb.
  rewrite (SFcompare_antisym (Prim2SF x) (Prim2SF y)).
  intros Hx Hy.
  destruct (SFcompare (Prim2SF x) (Prim2SF y)) as [[]|] eqn:Hc; cbn;
    try congruence.
  apply SFcompare_None in Hc as [Hc|Hc]; rewrite Hc in *; discriminate.
Qed.

(** On numbers, the builtin [max] is the greater of its two arguments. *)
Lemma max_upper_bound (a b : float) :
  is_nan a = false -> is_nan b = false ->
  (a <=? PyFloat.max a b) = true /\ (b <=? PyFloat.max a b) = true.
Proof.
  intros Ha Hb. unfold PyFloat.max. destruct (a <? b) eqn:Hlt.
  - split; [apply ltb_leb, Hlt|apply leb_refl, Hb].
  - split; [apply leb_refl, Ha|apply ltb_false_leb; assumption].
Qed.

(** *** Signs of differences and quotients *)

Lemma binary_round_aux_signed s m e l :
  signed s (binary_round_aux prec emax s m e l).
Proof.
  unfold binary_round_aux.
  destruct (shr_fexp prec emax m e l) as [mrs' e'].
  destruct (shr_fexp prec emax _ e' loc_Exact) as [mrs'' e''].
  destruct (shr_m mrs''); simpl; try reflexivity.
  destruct (Z.leb e'' _); reflexivity.
Qed.

Lemma binary_round_signed s m e : signed s (binary_round prec emax s m e).
Proof.
  unfold binary_round. destruct (shl_align m e _) as [mz ez].
  apply binary_round_aux_signed.
Qed.

Lemma binary_normalize_signed m e :
  (0 <= m)%Z -> signed false (binary_normalize prec emax m e false).
Proof.
  destruct m as [|m|m]; simpl; intros Hm; [reflexivity| |lia].
  apply binary_round_signed.
Qed.

Lemma digits2_pos_lower m : (2 ^ (Zpos (digits2_pos m) - 1) <= Zpos m)%Z.
Proof.
  induction m as [m IH|m IH|]; simpl digits2_pos.
  - rewrite Pos2Z.inj_succ. replace (Z.succ (Zpos (digits2_pos m)) - 1)%Z
      with (Z.succ (Zpos (digits2_pos m) - 1))%Z by lia.
    rewrite Z.pow_succ_r by lia. lia.
  - rewrite Pos2Z.inj_succ. replace (Z.succ (Zpos (digits2_pos m)) - 1)%Z
      with (Z.succ (Zpos (digits2_pos m) - 1))%Z by lia.
    rewrite Z.pow_succ_r by lia. lia.
  - simpl. lia.
Qed.

Lemma digits2_pos_upper m : (Zpos m < 2 ^ Zpos (digits2_pos m))%Z.
Proof.
  induction m as [m IH|m IH|]; simpl digits2_pos.
  - rewrite Pos2Z.inj_succ, Z.pow_succ_r by lia. lia.
  - rewrite Pos2Z.inj_succ, Z.pow_succ_r by lia. lia.
  - simpl. lia.
Qed.

Lemma iter_xO_double m d : (2 * Zpos m <= Zpos (Pos.iter xO m d))%Z.
Proof.
  induction d as [|d IH] using Pos.peano_ind.
  - simpl. lia.
  - rewrite Pos.iter_succ. lia.
Qed.

Lemma bounded_digits m e :
  bounded prec emax m e = true -> (Zpos (digits2_pos m) <= prec /\ emin <= e)%Z.
Proof.
  unfold bounded, canonical_mantissa, fexp. intros H.
  apply andb_prop in H as [H _]. apply Z.eqb_eq in H.
  unfold SpecFloat.emin in *. lia.
Qed.

Lemma bounded_normal m e :
  bounded prec emax m e = true -> (emin < e)%Z -> Zpos (digits2_pos m) = prec.
Proof.
  unfold bounded, canonical_mantissa, fexp. intros H He.
  apply andb_prop in H as [H _]. apply Z.eqb_eq in H.
  unfold SpecFloat.emin in *. lia.
Qed.

(** The difference of two negative numbers, the first not below the second,
    is not negative. *)
Lemma SFsub_neg_signed mx ex y :
  bounded prec emax mx ex = true -> valid_binary y = true ->
  SFltb (S754_finite true mx ex) y = false ->
  signed false (SF64sub (S754_finite true mx ex) y).
Proof.
  intros Hx Hy Hlt. unfold SFltb in Hlt.
  destruct y as [sy|[]| |[] my ey]; simpl in Hlt; try discriminate; try exact I;
    try reflexivity.
  simpl in Hy. unfold SF64sub, SFsub. apply binary_normalize_signed.
  unfold cond_Zopp.
  destruct (Z.compare_spec ex ey) as [->|Hlt'|Hgt]; try discriminate.
  - rewrite Z.min_id. unfold shl_align. rewrite Z.sub_diag. simpl.
    change (PosDef.Pos.compare_cont Eq mx my) with (mx ?= my)%positive in Hlt.
    destruct (Pos.compare_spec mx my); simpl in Hlt; try discriminate; lia.
  - rewrite Z.min_l by lia. unfold shl_align. rewrite Z.sub_diag.
    destruct (ex - ey)%Z as [|d|d] eqn:Hd; try lia. simpl fst.
    pose proof (iter_xO_double my d) as Hshift.
    pose proof (bounded_digits _ _ Hx) as [Hdx Hex].
    assert (Hdy : Zpos (digits2_pos my) = prec)
      by (apply (bounded_normal my ey Hy); lia).
    pose proof (digits2_pos_upper mx) as Hux.
    pose proof (digits2_pos_lower my) as Hly. rewrite Hdy in Hly.
    assert (Hpow : (2 ^ Zpos (digits2_pos mx) <= 2 ^ prec)%Z)
      by (apply Z.pow_le_mono_r; lia).
    assert (Hprec : (2 ^ prec = 2 * 2 ^ (prec - 1))%Z) by reflexivity.
    lia.
Qed.

Lemma SFdiv_signed r x :
  signed false r -> SFltb x (S754_zero false) = true ->
  signed true (SF64div r x).
Proof.
  unfold SFltb. intros Hr Hx.
  destruct x as [sx|[]| |[] mx ex]; simpl in Hx; try discriminate;
    try (destruct sx; discriminate).
  - destruct r as [s|s| |s m e]; simpl in *; subst; reflexivity.
  - destruct r as [s|s| |s m e]; simpl in Hr; subst; try reflexivity.
    unfold SF64div, SFdiv.
    destruct (SFdiv_core_binary prec emax (Zpos m) e (Zpos mx) ex) as [[mz ez] lz].
    apply (binary_round_aux_signed true).
Qed.

Lemma signed_true_not_pos r :
  signed true r -> SFltb (S754_zero false) r = false.
Proof. destruct r as [s|s| |s m e]; simpl; intros H; subst; reflexivity. Qed.

Lemma SFsub_neg_inf_signed y :
  SFltb (S754_infinity true) y = false ->
  signed false (SF64sub (S754_infinity true) y).
Proof.
  unfold SFltb. destruct y as [sy|[]| |sy my ey]; simpl; intros H;
    try discriminate; exact I.
Qed.

(** With a negative peak [p] and an equity [e] not above it, the quotient
    [(p - e) / p] is not positive: the difference is not negative (or is
    [nan]), the divisor is negative. *)
Lemma drawdown_quotient_not_positive (p e : float) :
  (p <? 0) = true -> (p <? e) = false -> (0 <? (p - e) / p) = false.
Proof.
  rewrite !ltb_spec, div_spec, sub_spec.
  change (Prim2SF 0) with (S754_zero false).
  pose proof (Prim2SF_valid p) as Hvp. pose proof (Prim2SF_valid e) as Hve.
  destruct (Prim2SF p) as [sp|sp| |sp mp ep] eqn:Hp; intros Hneg Hle.
  - destruct sp; discriminate.
  - destruct sp; [|discriminate].
    apply signed_true_not_pos, SFdiv_signed; [|exact Hneg].
    apply SFsub_neg_inf_signed, Hle.
  - discriminate.
  - destruct sp; [|discriminate].
    apply signed_true_not_pos, SFdiv_signed; [|exact Hneg].
    apply SFsub_neg_signed; assumption.
Qed.

End PyFloatFacts.

(** ** The drawdown guardrail *)

Module GuardrailFacts.
Import Strategy Main History PyFloatFacts.
Local Open Scope float_scope.

#[local] Arguments update_drawdown_and_guardrail_at : simpl never.

Lemma update_unfold (max_dd_pct equity : float) (file : RiskFile) :
  let state := load_risk_state file in
  let peak' := new_peak (peak_equity state) equity in
  let dd := drawdown peak' equity in
  let paused := (max_dd_pct <=? dd) || auto_paused state in
  update_drawdown_and_guardrail_at max_dd_pct equity file
  = ((paused, dd, peak'),
     Some {| peak_equity := Some peak'; auto_paused := paused;
             last_equity := Some equity; user_paused := user_paused state |}).
Proof.
  unfold update_drawdown_and_guardrail_at, save_risk_state, new_peak, drawdown.
  cbv zeta. destruct (peak_equity (load_risk_state file)) as [p|];
    destruct (max_dd_pct <=? _); reflexivity.
Qed.

Lemma new_peak_not_below (peak : option float) (equity : float) :
  (new_peak peak equity <? equity) = false.
Proof.
  unfold new_peak. destruct peak as [p|]; [|apply ltb_irrefl].
  destruct (p <? equity) eqn:Hp; [apply ltb_irrefl|exact Hp].
Qed.

Lemma new_peak_idem (peak : option float) (equity : float) :
  new_peak (Some (new_peak peak equity)) equity = new_peak peak equity.
Proof.
  change (new_peak (Some ?p) equity) with (if p <? equity then equity else p).
  rewrite new_peak_not_below. reflexivity.
Qed.

Lemma new_peak_le (peak : option float) (equity : float) :
  peak_le peak (Some (new_peak peak equity)).
Proof.
  destruct peak as [p|]; simpl; [|exact I].
  destruct (p <? equity) eqn:Hp; auto.
Qed.

Lemma drawdown_negative_peak (peak equity : float) :
  (peak <? 0) = true -> (peak <? equity) = false -> drawdown peak equity = 0.
Proof.
  intros Hneg Hle. unfold drawdown, PyFloat.max.
  rewrite (drawdown_quotient_not_positive _ _ Hneg Hle).
  destruct (peak =? 0); reflexivity.
Qed.

Lemma new_peak_negative (peak : option float) (equity : float) :
  (equity <? 0) = true ->
  match peak with Some p => (p <? 0) = true | None => True end ->
  (new_peak peak equity <? 0) = true.
Proof.
  intros He Hp. destruct peak as [p|]; simpl; [|exact He].
  destruct (p <? equity); assumption.
Qed.

(** The drawdown is never negative (and never [nan]). *)
Lemma drawdown_not_negative (peak equity : float) :
  (0 <=? drawdown peak equity) = true.
Proof.
  unfold drawdown. destruct (peak =? 0); [reflexivity|].
  destruct (max_cases 0 ((peak - equity) / peak)) as [[-> H]|[-> _]];
    [apply ltb_leb, H|reflexivity].
Qed.

(** Scenario B: the first observation of a fresh state. *)
Example first_observation :
  update_drawdown_and_guardrail 10000 None
  = ((false, 0, 10000),
     Some {| peak_equity := Some 10000; auto_paused := false;
             last_equity := Some 10000; user_paused := false |}).
Proof. reflexivity. Qed.

(** C2: [update_drawdown_and_guardrail(equity)] on a state with peak [p]
    returns [(auto_paused, dd, peak')] with [peak' = equity] when [p] is
    absent or [equity > p] and [peak' = p] otherwise, [dd = 0] when
    [peak' == 0] and [dd = max(0, (peak' - equity) / peak')] otherwise, and
    [auto_paused] true whenever [dd >= MAX_DD_PCT] (the stored flag
    otherwise); it saves [peak'], the equity and the flag and leaves
    [user_paused]. With peak 10000 and the threshold 0.05 of the module,
    the equity 9400 gives [dd = 0.06] and [auto_paused = True]. *)
Theorem observe_returns :
  (forall (max_dd_pct equity : float) (file : RiskFile),
     exists (paused : bool) (dd peak' : float),
       update_drawdown_and_guardrail_at max_dd_pct equity file
       = ((paused, dd, peak'),
          Some {| peak_equity := Some peak'; auto_paused := paused;
                  last_equity := Some equity;
                  user_paused := user_paused (load_risk_state file) |})
       /\ peak' = match peak_equity (load_risk_state file) with
                  | None => equity
                  | Some p => if p <? equity then equity else p
                  end
       /\ dd = (if peak' =? 0 then 0
                else if 0 <? (peak' - equity) / peak'
                     then (peak' - equity) / peak' else 0)
       /\ paused = (max_dd_pct <=? dd) || auto_paused (load_risk_state file))
  /\ (forall (paused user : bool) (last : option float),
        update_drawdown_and_guardrail 9400
          (Some {| peak_equity := Some 10000; auto_paused := paused;
                   last_equity := last; user_paused := user |})
        = ((true, 0.06, 10000),
           Some {| peak_equity := Some 10000; auto_paused := true;
                   last_equity := Some 9400; user_paused := user |})).
Proof.
  split.
  - intros max_dd_pct equity file. eexists _, _, _.
    split; [apply update_unfold|].
    repeat split; reflexivity.
  - intros paused user last. reflexivity.
Qed.

Lemma observations_latched (max_dd_pct : float) (equities : list float) :
  forall file : RiskFile,
    latched file = true ->
    Forall (fun r => r.1.1 = true) (observations max_dd_pct equities file).1
    /\ latched (observations max_dd_pct equities file).2 = true.
Proof.
  induction equities as [|equity equities IH]; intros file Hfile;
    cbn [observations].
  - split; [constructor|exact Hfile].
  - rewrite update_unfold. cbv zeta.
    unfold latched in Hfile. rewrite Hfile, orb_true_r.
    match goal with |- context [observations _ _ ?f] =>
      destruct (IH f eq_refl) as [Hall Hlast];
      destruct (observations max_dd_pct equities f) as [rs file'] end.
    simpl in *. split; [constructor; [reflexivity|exact Hall]|exact Hlast].
Qed.

(** C3: once [update_drawdown_and_guardrail] has returned
    [auto_paused = True], every later call returns it true and leaves it
    true in the file, whatever the equities; of the operations that write
    the file only [clear_auto_pause] takes the flag from true to false, and
    it always leaves it false. *)
Theorem auto_pause_latch :
  (forall (max_dd_pct equity : float) (file : RiskFile) (equities : list float),
     (update_drawdown_and_guardrail_at max_dd_pct equity file).1.1.1 = true ->
     let file' := (update_drawdown_and_guardrail_at max_dd_pct equity file).2 in
     Forall (fun r => r.1.1 = true) (observations max_dd_pct equities file').1
     /\ latched (observations max_dd_pct equities file').2 = true)
  /\ (forall (max_dd_pct : float) (o : op) (file : RiskFile),
        latched file = true -> latched (step max_dd_pct o file) = false ->
        o = ClearAutoPause)
  /\ (forall file : RiskFile, latched (clear_auto_pause file) = false).
Proof.
  split; [|split].
  - intros max_dd_pct equity file equities. rewrite update_unfold. cbv zeta.
    simpl. intros Hp. apply observations_latched. unfold latched. simpl.
    exact Hp.
  - intros max_dd_pct [equity| |paused|equity] file Hfile;
      cbn [step]; [rewrite update_unfold|reflexivity| |];
      unfold latched in *; cbn; rewrite ?Hfile, ?orb_true_r; congruence.
  - intros file. reflexivity.
Qed.

(** Scenarios C and D: the guardrail trips at 9400 under the peak 10000 and
    stays tripped at 10200 and 10300. *)
Lemma auto_pause_latch_witness :
  Forall (fun r => r.1.1 = true)
    (observations 0.05 [10200; 10300]
       (update_drawdown_and_guardrail_at 0.05 9400
          (Some {| peak_equity := Some 10000; auto_paused := false;
                   last_equity := None; user_paused := false |})).2).1
  /\ latched
       (observations 0.05 [10200; 10300]
          (update_drawdown_and_guardrail_at 0.05 9400
             (Some {| peak_equity := Some 10000; auto_paused := false;
                      last_equity := None; user_paused := false |})).2).2
     = true.
Proof.
  exact (proj1 auto_pause_latch 0.05 9400
           (Some {| peak_equity := Some 10000; auto_paused := false;
                    last_equity := None; user_paused := false |})
           [10200; 10300] eq_refl).
Defined.

Lemma observe_trace_step (max_dd_pct : float) (equities : list float) :
  forall (file : RiskFile) (k : nat) (f g : RiskFile),
    observe_trace max_dd_pct equities file !! k = Some f ->
    observe_trace max_dd_pct equities file !! S k = Some g ->
    exists equity, g = (update_drawdown_and_guardrail_at max_dd_pct equity f).2.
Proof.
  induction equities as [|equity equities IH]; intros file k f g Hk HSk.
  - destruct k; discriminate.
  - destruct k as [|k].
    + exists equity. cbn in Hk, HSk. injection Hk as <-.
      destruct equities; cbn in HSk; congruence.
    + exact (IH _ k f g Hk HSk).
Qed.

(** C4: over any sequence of calls from any risk state, the peak in the
    file after a call is greater than or equal to the peak in the file
    before it: it is greater, or it is the same number; an absent peak
    counts as below every number. In particular [peak_after >= peak_before]
    holds as Python evaluates it, unless the peak before is [nan] (which
    compares false with itself). *)
Theorem peak_monotone (max_dd_pct : float) (equities : list float)
    (file : RiskFile) (k : nat) (f g : RiskFile) :
  observe_trace max_dd_pct equities file !! k = Some f ->
  observe_trace max_dd_pct equities file !! S k = Some g ->
  peak_le (persisted_peak f) (persisted_peak g)
  /\ (forall a b : float,
        persisted_peak f = Some a -> persisted_peak g = Some b ->
        is_nan a = false -> (a <=? b) = true).
Proof.
  intros Hk HSk.
  destruct (observe_trace_step _ _ _ _ _ _ Hk HSk) as [equity ->].
  rewrite update_unfold. cbv zeta. unfold persisted_peak. cbn.
  split; [apply new_peak_le|].
  intros a b -> [= <-] Ha. cbn.
  destruct (a <? equity) eqn:Hlt; [apply ltb_leb, Hlt|apply leb_refl, Ha].
Qed.

(** A peak of 10000 before the second call (equity 9400) and of 10200
    after the third (equity 10200). *)
Lemma peak_monotone_witness :
  peak_le (Some 10000) (Some 10200)
  /\ (forall a b : float,
        Some 10000 = Some a -> Some 10200 = Some b ->
        is_nan a = false -> (a <=? b) = true).
Proof.
  exact (peak_monotone 0.05 [10000; 9400; 10200] None 2
           (Some {| peak_equity := Some 10000; auto_paused := true;
                    last_equity := Some 9400; user_paused := false |})
           (Some {| peak_equity := Some 10200; auto_paused := true;
                    last_equity := Some 10200; user_paused := false |})
           eq_refl eq_refl).
Defined.

(** C8: a second call with the same equity, right after the first, returns
    what the first returned and leaves the file as the first left it. *)
Theorem observe_idempotent (max_dd_pct equity : float) (file : RiskFile) :
  update_drawdown_and_guardrail_at max_dd_pct equity
    (update_drawdown_and_guardrail_at max_dd_pct equity file).2
  = update_drawdown_and_guardrail_at max_dd_pct equity file.
Proof.
  rewrite (update_unfold max_dd_pct equity file). cbv zeta.
  rewrite update_unfold.
  cbn [load_risk_state peak_equity auto_paused user_paused snd].
  rewrite new_peak_idem.
  destruct (max_dd_pct <=? _); reflexivity.
Qed.

Lemma observations_negative (max_dd_pct : float) (equities : list float) :
  (0 <? max_dd_pct) = true ->
  Forall (fun equity => (equity <? 0) = true) equities ->
  forall file : RiskFile,
    match persisted_peak file with Some p => (p <? 0) = true | None => True end ->
    Forall (fun r => r.1.2 = 0 /\ r.1.1 = latched file)
      (observations max_dd_pct equities file).1
    /\ latched (observations max_dd_pct equities file).2 = latched file.
Proof.
  intros Hthr Hall. induction Hall as [|equity equities He _ IH];
    intros file Hpeak; cbn [observations].
  - split; [constructor|reflexivity].
  - rewrite update_unfold. cbv zeta. unfold persisted_peak in Hpeak.
    pose proof (new_peak_negative _ _ He Hpeak) as Hneg.
    rewrite (drawdown_negative_peak _ _ Hneg (new_peak_not_below _ _)).
    rewrite (ltb_not_geb _ _ Hthr). cbn [orb].
    match goal with |- context [observations _ _ ?f] =>
      destruct (IH f Hneg) as [Hrs Hlast];
      destruct (observations max_dd_pct equities f) as [rs file'] end.
    cbn in *. fold (latched file) in *.
    split; [constructor; [split; reflexivity|exact Hrs]|exact Hlast].
Qed.

(** C10: a call whose updated peak is negative returns the drawdown 0; so
    from a state whose peak is absent or negative, calls with negative
    equities all return the drawdown 0 and, the threshold being positive,
    return and leave [auto_paused] as it was. *)
Theorem negative_peak_no_drawdown :
  (forall (max_dd_pct equity : float) (file : RiskFile),
     ((update_drawdown_and_guardrail_at max_dd_pct equity file).1.2 <? 0) = true ->
     (update_drawdown_and_guardrail_at max_dd_pct equity file).1.1.2 = 0)
  /\ (forall (max_dd_pct : float) (equities : list float) (file : RiskFile),
        (0 <? max_dd_pct) = true ->
        Forall (fun equity => (equity <? 0) = true) equities ->
        match persisted_peak file with Some p => (p <? 0) = true | None => True end ->
        Forall (fun r => r.1.2 = 0 /\ r.1.1 = latched file)
          (observations max_dd_pct equities file).1
        /\ latched (observations max_dd_pct equities file).2 = latched file).
Proof.
  split.
  - intros max_dd_pct equity file. rewrite update_unfold. cbn.
    intros Hneg. apply (drawdown_negative_peak _ _ Hneg), new_peak_not_below.
  - intros max_dd_pct equities file Hthr Hall Hpeak.
    apply observations_negative; assumption.
Qed.

(** An account at -100, then -500, then -50, from a fresh state. *)
Lemma negative_peak_no_drawdown_witness :
  (update_drawdown_and_guardrail_at 0.05 (-500)
     (Some {| peak_equity := Some (-100); auto_paused := false;
              last_equity := Some (-100); user_paused := false |})).1.1.2 = 0
  /\ Forall (fun r => r.1.2 = 0 /\ r.1.1 = latched None)
       (observations 0.05 [-100; -500; -50] None).1
  /\ latched (observations 0.05 [-100; -500; -50] None).2 = latched None.
Proof.
  split.
  - exact (proj1 negative_peak_no_drawdown 0.05 (-500)
             (Some {| peak_equity := Some (-100); auto_paused := false;
                      last_equity := Some (-100); user_paused := false |})
             eq_refl).
  - apply (proj2 negative_peak_no_drawdown 0.05 [-100; -500; -50] None eq_refl).
    + repeat constructor.
    + exact I.
Defined.

End GuardrailFacts.

(** ** The trading decision *)

Module TradeFacts.
Import Strategy Main.
Local Open Scope float_scope.

(** C5: with the manual pause on, the pass resolves to HOLD and submits no
    order; otherwise, with [auto_paused] on, likewise; otherwise, with no
    signal ([None]), likewise: each whatever the signal, the position and
    the rest of the risk state. *)
Theorem paused_or_undetermined_holds
    (user_paused auto_paused : bool) (signal : option string)
    (reason : string) (confidence : float) (position : result float) :
  let o := trade user_paused auto_paused signal reason confidence position in
  (user_paused = true -> action_of o = "HOLD" /\ order_of o = None)
  /\ (user_paused = false -> auto_paused = true ->
      action_of o = "HOLD" /\ order_of o = None)
  /\ (user_paused = false -> auto_paused = false -> signal = None ->
      action_of o = "HOLD" /\ order_of o = None).
Proof.
  cbv zeta. unfold trade. repeat split; intros; subst; reflexivity.
Qed.

(** Scenario F: manual pause on, signal SELL, 100 shares held. *)
Lemma paused_or_undetermined_holds_witness :
  action_of (trade true false (Some "sell") "" 0 (Ok 100)) = "HOLD"
  /\ order_of (trade true false (Some "sell") "" 0 (Ok 100)) = None.
Proof.
  exact (proj1 (paused_or_undetermined_holds true false (Some "sell") "" 0 (Ok 100))
           eq_refl).
Defined.

(** C6: [should_buy] and [should_sell] are never both true. *)
Theorem buy_sell_exclusive (signal : option string) (qty_now : Z) :
  should_buy signal qty_now && should_sell signal qty_now = false.
Proof.
  unfold should_buy, should_sell.
  destruct (Z.leb_spec qty_now 0) as [Hle|Hgt].
  - replace (0 <? qty_now)%Z with false by (symmetry; apply Z.ltb_ge, Hle).
    rewrite !andb_false_r. reflexivity.
  - rewrite andb_false_r. reflexivity.
Qed.

(** C9: [position_qty] is 0 whenever the request or the reading of its
    answer raises; the rest of the pass is then what it is for a flat
    position, and with a buy signal and no pause it submits the buy order
    of [QTY] shares. *)
Theorem failed_position_reads_flat :
  (forall e : exn, position_qty (Raise e) = 0%Z)
  /\ position_qty (Ok nan) = 0%Z
  /\ position_qty (Ok infinity) = 0%Z
  /\ (forall (e : exn) (user_paused auto_paused : bool) (signal : option string)
        (reason : string) (confidence : float),
        trade user_paused auto_paused signal reason confidence (Raise e)
        = trade user_paused auto_paused signal reason confidence (Ok 0))
  /\ (forall (e : exn) (reason : string) (confidence : float),
        trade false false (Some "buy") reason confidence (Raise e)
        = Placed "buy" QTY reason confidence).
Proof.
  repeat split; reflexivity.
Qed.

(** Scenario E: a buy signal while 500 shares are held. *)
Example buy_signal_already_long (reason : string) (confidence : float) :
  trade false false (Some "buy") reason confidence (Ok 500) = Reported "HOLD" 500.
Proof. reflexivity. Qed.

(** A whole pass of the loop under the manual pause, whatever the broker
    answers: no order. *)
Lemma loop_body_user_paused (t : Tick) (file : RiskFile) :
  is_user_paused file = true ->
  action_of (loop_body t file).1 = "HOLD" /\ order_of (loop_body t file).1 = None.
Proof.
  intros Hpaused. unfold loop_body.
  destruct (account_equity t) as [equity|e]; [|split; reflexivity].
  unfold update_drawdown_and_guardrail, update_drawdown_and_guardrail_at.
  cbv zeta.
  match goal with
  | |- context [match ?a with Ok _ => _ | Raise _ => _ end] =>
      destruct a as [[[signal reason] confidence]|e]
  end; [|split; reflexivity].
  unfold is_user_paused in *. cbn [load_risk_state save_risk_state user_paused].
  rewrite Hpaused. split; reflexivity.
Qed.

(** A whole pass of the loop whose guardrail call returns
    [auto_paused = True]: no order. *)
Lemma loop_body_auto_paused (t : Tick) (file : RiskFile) (equity : float) :
  account_equity t = Ok equity ->
  (update_drawdown_and_guardrail equity file).1.1.1 = true ->
  action_of (loop_body t file).1 = "HOLD" /\ order_of (loop_body t file).1 = None.
Proof.
  intros Hequity. unfold loop_body. rewrite Hequity.
  destruct (update_drawdown_and_guardrail equity file) as [[[paused dd] peak] file'].
  cbn [fst]. intros ->.
  match goal with
  | |- context [match ?a with Ok _ => _ | Raise _ => _ end] =>
      destruct a as [[[signal reason] confidence]|e]
  end; [|split; reflexivity].
  cbn [fst]. unfold trade. destruct (is_user_paused file'); split; reflexivity.
Qed.

End TradeFacts.

(** ** The crossover detector *)

Module StrategyFacts.
Import Strategy Crossover PyFloatFacts.
Local Open Scope float_scope.

#[local] Arguments iloc : simpl never.
#[local] Arguments rolling_mean : simpl never.

Lemma bind_Ok {A B : Type} (a : A) (k : A -> result B) : (Ok a ≫= k) = k a.
Proof. reflexivity. Qed.

Lemma getitem_Some (df : DataFrame) (col : string) (s : list float) :
  df !! col = Some s -> getitem df col = Ok s.
Proof. unfold getitem. intros ->. reflexivity. Qed.

Lemma iloc_from_end (s : list float) (k : nat) (x : float) :
  (1 <= k <= length s)%nat ->
  s !! (length s - k)%nat = Some x ->
  iloc s (- Z.of_nat k) = Ok x.
Proof.
  intros Hk Hx. unfold iloc.
  replace (- Z.of_nat k <? 0)%Z with true by (symmetry; apply Z.ltb_lt; lia).
  replace (0 <=? Z.of_nat (length s) + - Z.of_nat k)%Z with true
    by (symmetry; apply Z.leb_le; lia).
  replace (Z.of_nat (length s) + - Z.of_nat k <? Z.of_nat (length s))%Z with true
    by (symmetry; apply Z.ltb_lt; lia).
  replace (Z.to_nat (Z.of_nat (length s) + - Z.of_nat k)) with (length s - k)%nat
    by lia.
  cbn. rewrite Hx. reflexivity.
Qed.

Lemma iloc_last (s : list float) (x : float) :
  (1 <= length s)%nat -> s !! (length s - 1)%nat = Some x -> iloc s (-1) = Ok x.
Proof. intros Hn Hx. apply (iloc_from_end s 1 x); [lia|exact Hx]. Qed.

Lemma iloc_prev (s : list float) (x : float) :
  (2 <= length s)%nat -> s !! (length s - 2)%nat = Some x -> iloc s (-2) = Ok x.
Proof. intros Hn Hx. apply (iloc_from_end s 2 x); [lia|exact Hx]. Qed.

Lemma length_rolling_mean (w : nat) (s : list float) :
  length (rolling_mean w s) = length s.
Proof. unfold rolling_mean. apply length_imap. Qed.

Lemma rolling_mean_warm_up (w : nat) (s : list float) (i : nat) (x : float) :
  rolling_mean w s !! i = Some x -> (S i < w)%nat -> x = nan.
Proof.
  unfold rolling_mean. rewrite list_lookup_imap.
  destruct (s !! i) as [c|]; [|discriminate]. cbn.
  destruct (decide (w <= S i)%nat); [lia|]. congruence.
Qed.

Lemma append_inj (p a b : string) : p +:+ a = p +:+ b -> a = b.
Proof. induction p as [|c p IH]; cbn; [auto|]. intros [= H]. auto. Qed.

(** The two columns [compute_smas] and [sma_cross_signal] add, read back. *)
Lemma lookup_sma_columns (prefix : string) (g : nat -> list float)
    (df : DataFrame) (fast slow : nat) :
  let df' := <[prefix +:+ pretty slow := g slow]>
               (<[prefix +:+ pretty fast := g fast]> df) in
  df' !! (prefix +:+ pretty fast) = Some (g fast)
  /\ df' !! (prefix +:+ pretty slow) = Some (g slow).
Proof.
  cbv zeta. split; [|apply lookup_insert_eq].
  destruct (decide (fast = slow)) as [->|Hne]; [apply lookup_insert_eq|].
  rewrite lookup_insert_ne, lookup_insert_eq; [reflexivity|].
  intros H. apply append_inj, pretty_nat_inj in H. congruence.
Qed.

Ltac read_rows :=
  repeat first
    [ rewrite bind_Ok
    | match goal with
      | H : ?df !! ?c = Some _ |- context [getitem ?df ?c] =>
          rewrite (getitem_Some df c _ H)
      | H : iloc ?s ?i = Ok _ |- context [iloc ?s ?i] => rewrite H
      | H : is_nan ?x = _ |- context [is_nan ?x] => rewrite H
      end ].

Lemma latest_signal_reason_defined (df : DataFrame) (fast slow : nat)
    (fs ss : list float) (pf ps cf cs : float) :
  df !! ("SMA" +:+ pretty fast) = Some fs ->
  df !! ("SMA" +:+ pretty slow) = Some ss ->
  iloc fs (-2) = Ok pf -> iloc ss (-2) = Ok ps ->
  iloc fs (-1) = Ok cf -> iloc ss (-1) = Ok cs ->
  is_nan cs = false ->
  latest_signal_reason df fast slow = Ok (verdict fast slow pf ps cf cs).
Proof.
  intros Hf Hs Hpf Hps Hcf Hcs Hnan.
  unfold latest_signal_reason, verdict, crossed_above, crossed_below. cbv zeta.
  read_rows.
  destruct ((pf <=? ps) && (cs <? cf)); [reflexivity|].
  destruct ((ps <=? pf) && (cf <? cs)); reflexivity.
Qed.

Lemma latest_signal_reason_undefined (df : DataFrame) (fast slow : nat)
    (ss : list float) (cs : float) :
  df !! ("SMA" +:+ pretty slow) = Some ss ->
  iloc ss (-1) = Ok cs -> is_nan cs = true ->
  latest_signal_reason df fast slow = Ok ("none", "Not enough data", 0).
Proof.
  intros Hs Hcs Hnan. unfold latest_signal_reason. cbv zeta.
  read_rows. reflexivity.
Qed.

Lemma describe_sma_signal_defined (df : DataFrame) (fast slow : nat)
    (fs ss : list float) (pf ps cf cs : float) :
  df !! ("sma_" +:+ pretty fast) = Some fs ->
  df !! ("sma_" +:+ pretty slow) = Some ss ->
  iloc fs (-2) = Ok pf -> iloc ss (-2) = Ok ps ->
  iloc fs (-1) = Ok cf -> iloc ss (-1) = Ok cs ->
  is_nan cs = false ->
  describe_sma_signal df fast slow
  = Ok ((verdict fast slow pf ps cf cs).1.2, (verdict fast slow pf ps cf cs).2).
Proof.
  intros Hf Hs Hpf Hps Hcf Hcs Hnan.
  unfold describe_sma_signal, verdict, crossed_above, crossed_below. cbv zeta.
  read_rows.
  destruct ((pf <=? ps) && (cs <? cf)); [reflexivity|].
  destruct ((ps <=? pf) && (cf <? cs)); reflexivity.
Qed.

Lemma sma_column_not_close (rest : string) :
  "SMA" +:+ rest <> "close" /\ "sma_" +:+ rest <> "close".
Proof. split; intros H; cbn in H; discriminate H. Qed.

Lemma compute_smas_Ok (df : DataFrame) (fast slow : nat) (close : list float) :
  df !! "close" = Some close ->
  compute_smas df fast slow
  = Ok (<["SMA" +:+ pretty slow := rolling_mean slow close]>
          (<["SMA" +:+ pretty fast := rolling_mean fast close]> df)).
Proof.
  intros Hclose. unfold compute_smas. read_rows. cbv zeta.
  rewrite (getitem_Some _ "close" close); [reflexivity|].
  rewrite lookup_insert_ne; [exact Hclose|].
  apply sma_column_not_close.
Qed.

(** [sma_cross_signal] up to its reading of the last two rows. *)
Lemma sma_cross_signal_columns (df : DataFrame) (fast slow : nat)
    (close : list float) :
  df !! "close" = Some close ->
  exists df' : DataFrame,
    df' !! ("sma_" +:+ pretty fast) = Some (rolling_mean fast close)
    /\ df' !! ("sma_" +:+ pretty slow) = Some (rolling_mean slow close)
    /\ sma_cross_signal df fast slow
       = (s ← getitem df' ("sma_" +:+ pretty slow);
          last ← iloc s (-1);
          if is_nan last then mret None
          else
            fs ← getitem df' ("sma_" +:+ pretty fast); prev_fast ← iloc fs (-2);
            ss ← getitem df' ("sma_" +:+ pretty slow); prev_slow ← iloc ss (-2);
            fs ← getitem df' ("sma_" +:+ pretty fast); curr_fast ← iloc fs (-1);
            ss ← getitem df' ("sma_" +:+ pretty slow); curr_slow ← iloc ss (-1);
            if (prev_fast <=? prev_slow) && (curr_slow <? curr_fast)
            then mret (Some "buy")
            else if (prev_slow <=? prev_fast) && (curr_fast <? curr_slow)
                 then mret (Some "sell")
                 else mret (Some "hold")).
Proof.
  intros Hclose.
  exists (<["sma_" +:+ pretty slow := rolling_mean slow close]>
            (<["sma_" +:+ pretty fast := rolling_mean fast close]> df)).
  destruct (lookup_sma_columns "sma_" (fun w => rolling_mean w close) df fast slow)
    as [Hf Hs].
  split; [exact Hf|]. split; [exact Hs|].
  unfold sma_cross_signal. cbv zeta. rewrite (getitem_Some _ _ _ Hclose), bind_Ok.
  rewrite (getitem_Some _ "close" close); [reflexivity|].
  rewrite lookup_insert_ne; [exact Hclose|].
  apply sma_column_not_close.
Qed.

Lemma sma_cross_signal_defined (df : DataFrame) (fast slow : nat)
    (close : list float) (pf ps cf cs : float) :
  df !! "close" = Some close ->
  iloc (rolling_mean fast close) (-2) = Ok pf ->
  iloc (rolling_mean slow close) (-2) = Ok ps ->
  iloc (rolling_mean fast close) (-1) = Ok cf ->
  iloc (rolling_mean slow close) (-1) = Ok cs ->
  is_nan cs = false ->
  sma_cross_signal df fast slow
  = Ok (Some (if crossed_above pf ps cf cs then "buy"
              else if crossed_below pf ps cf cs then "sell" else "hold")).
Proof.
  intros Hclose Hpf Hps Hcf Hcs Hnan.
  destruct (sma_cross_signal_columns df fast slow close Hclose)
    as (df' & Hf & Hs & ->).
  unfold crossed_above, crossed_below. read_rows.
  destruct ((pf <=? ps) && (cs <? cf)); [reflexivity|].
  destruct ((ps <=? pf) && (cf <? cs)); reflexivity.
Qed.

Lemma sma_cross_signal_undefined (df : DataFrame) (fast slow : nat)
    (close : list float) (cs : float) :
  df !! "close" = Some close ->
  iloc (rolling_mean slow close) (-1) = Ok cs -> is_nan cs = true ->
  sma_cross_signal df fast slow = Ok None.
Proof.
  intros Hclose Hcs Hnan.
  destruct (sma_cross_signal_columns df fast slow close Hclose)
    as (df' & Hf & Hs & ->).
  read_rows. reflexivity.
Qed.

Lemma crossed_exclusive (pf ps cf cs : float) :
  crossed_above pf ps cf cs = true -> crossed_below pf ps cf cs = false.
Proof.
  unfold crossed_above, crossed_below. intros [_ H]%andb_prop.
  rewrite (ltb_asym _ _ H). apply andb_false_r.
Qed.



(** C7, as the code has it: for a price series that is not empty and whose
    slow average is missing at the last row (every such series shorter than
    the slow window is one) the detector answers UNDETERMINED (the signal
    word "none" of [latest_signal_reason], [None] of [sma_cross_signal])
    with confidence 0 and the reason "Not enough data", and raises
    nothing. *)
Theorem undetermined_without_slow_average (df : DataFrame) (fast slow : nat)
    (close : list float) :
  df !! "close" = Some close ->
  close <> [] ->
  (length close < slow)%nat
  \/ (exists currSlow : float,
        rolling_mean slow close !! (length close - 1)%nat = Some currSlow
        /\ is_nan currSlow = true) ->
  Dashboard.latest_signal df fast slow = Ok ("none", "Not enough data", 0)
  /\ sma_cross_signal df fast slow = Ok None.
Proof.
  intros Hclose Hne Hslow.
  assert (Hlen : (1 <= length close)%nat)
    by (destruct close; [congruence|cbn; lia]).
  assert (Hlast : exists currSlow : float,
             rolling_mean slow close !! (length close - 1)%nat = Some currSlow
             /\ is_nan currSlow = true).
  { destruct Hslow as [Hshort|Hlast]; [|exact Hlast].
    destruct (lookup_lt_is_Some_2 (rolling_mean slow close) (length close - 1))
      as [x Hx]; [rewrite length_rolling_mean; lia|].
    exists x. split; [exact Hx|].
    rewrite (rolling_mean_warm_up slow close _ x Hx); [reflexivity|lia]. }
  destruct Hlast as (currSlow & Hcs & Hnan).
  assert (Hcs' : iloc (rolling_mean slow close) (-1) = Ok currSlow)
    by (apply iloc_last; rewrite length_rolling_mean; assumption).
  destruct (lookup_sma_columns "SMA" (fun w => rolling_mean w close) df fast slow)
    as [_ Hs].
  split.
  - unfold Dashboard.latest_signal.
    rewrite (compute_smas_Ok df fast slow close Hclose), bind_Ok.
    exact (latest_signal_reason_undefined _ fast slow _ _ Hs Hcs' Hnan).
  - exact (sma_cross_signal_undefined df fast slow close _ Hclose Hcs' Hnan).
Qed.

(** Three closes under a slow window of 5. *)
Lemma undetermined_without_slow_average_witness :
  Dashboard.latest_signal {[ "close" := [1; 2; 3] ]} 2 5
  = Ok ("none", "Not enough data", 0)
  /\ sma_cross_signal {[ "close" := [1; 2; 3] ]} 2 5 = Ok None.
Proof.
  apply (undetermined_without_slow_average {[ "close" := [1; 2; 3] ]} 2 5 [1; 2; 3]).
  - vm_compute. reflexivity.
  - discriminate.
  - left. simpl. lia.
Defined.

(** C7 as stated fails: three closes under windows 2 and 3 have the slow
    average at one row only, the last, and the detector answers HOLD with
    confidence 0.25. *)
Lemma one_slow_average_holds :
  defined_positions (rolling_mean 3 [1; 2; 3]) = 1%nat
  /\ Dashboard.latest_signal {[ "close" := [1; 2; 3] ]} 2 3
     = Ok ("none", "HOLD — SMA(2) is above SMA(3); no crossover", 0.25)
  /\ sma_cross_signal {[ "close" := [1; 2; 3] ]} 2 3 = Ok (Some "hold").
Proof. vm_compute. repeat split; reflexivity. Qed.

(** A frame without rows has no last row to read. *)
Example empty_series_raises (df : DataFrame) (fast slow : nat) :
  df !! "close" = Some [] ->
  Dashboard.latest_signal df fast slow = Raise IndexError
  /\ sma_cross_signal df fast slow = Raise IndexError.
Proof.
  intros Hclose. split.
  - unfold Dashboard.latest_signal.
    rewrite (compute_smas_Ok df fast slow [] Hclose), bind_Ok.
    destruct (lookup_sma_columns "SMA" (fun w => rolling_mean w []) df fast slow)
      as [_ Hs].
    unfold latest_signal_reason. cbv zeta.
    rewrite (getitem_Some _ _ _ Hs), bind_Ok. reflexivity.
  - destruct (sma_cross_signal_columns df fast slow [] Hclose)
      as (df' & _ & Hs & ->).
    rewrite (getitem_Some _ _ _ Hs), bind_Ok. reflexivity.
Qed.

End StrategyFacts.

(** ** More on Python floats: transitivity, equality, signs, truncation *)

Module PyFloatOrder.
Import PyFloatFacts.
Local Open Scope float_scope.

#[local] Abbreviation signed := PyFloat.signed.

Lemma lex_trans (e1 e2 e3 : Z) (m1 m2 m3 : positive) :
  match (e1 ?= e2)%Z with Lt => Lt | Gt => Gt | Eq => (m1 ?= m2)%positive end = Lt ->
  match (e2 ?= e3)%Z with Lt => Lt | Gt => Gt | Eq => (m2 ?= m3)%positive end = Lt ->
  match (e1 ?= e3)%Z with Lt => Lt | Gt => Gt | Eq => (m1 ?= m3)%positive end = Lt.
Proof.
  destruct (Z.compare_spec e1 e2), (Z.compare_spec e2 e3);
    try discriminate; intros H12 H23.
  - subst. rewrite Z.compare_refl.
    apply Pos.compare_lt_iff in H12. apply Pos.compare_lt_iff in H23.
    apply Pos.compare_lt_iff. exact (Pos.lt_trans _ _ _ H12 H23).
  - subst. destruct (Z.compare_spec e2 e3); try lia. reflexivity.
  - subst. destruct (Z.compare_spec e1 e3); try lia. reflexivity.
  - destruct (Z.compare_spec e1 e3); try lia. reflexivity.
Qed.

Lemma SFltb_trans (x y z : spec_float) :
  SFltb x y = true -> SFltb y z = true -> SFltb x z = true.
Proof.
  unfold SFltb.
  destruct x as [[]|[]| |[] m1 e1], y as [[]|[]| |[] m2 e2],
           z as [[]|[]| |[] m3 e3]; cbn; try discriminate; try reflexivity.
  - pose proof (lex_trans e3 e2 e1 m3 m2 m1) as H.
    rewrite (Z.compare_antisym e2 e3), (Z.compare_antisym e1 e2),
      (Z.compare_antisym e1 e3), (Pos.compare_antisym m2 m3),
      (Pos.compare_antisym m1 m2), (Pos.compare_antisym m1 m3) in H.
    change (PosDef.Pos.compare_cont Eq m1 m2) with (m1 ?= m2)%positive.
    change (PosDef.Pos.compare_cont Eq m2 m3) with (m2 ?= m3)%positive.
    change (PosDef.Pos.compare_cont Eq m1 m3) with (m1 ?= m3)%positive.
    destruct (e1 ?= e2)%Z, (e2 ?= e3)%Z, (e1 ?= e3)%Z,
      (m1 ?= m2)%positive, (m2 ?= m3)%positive, (m1 ?= m3)%positive;
      cbn in *; intros; try discriminate; try reflexivity;
      try (specialize (H eq_refl eq_refl); discriminate H).
  - pose proof (lex_trans e1 e2 e3 m1 m2 m3) as H.
    change (PosDef.Pos.compare_cont Eq m1 m2) with (m1 ?= m2)%positive.
    change (PosDef.Pos.compare_cont Eq m2 m3) with (m2 ?= m3)%positive.
    change (PosDef.Pos.compare_cont Eq m1 m3) with (m1 ?= m3)%positive.
    destruct (e1 ?= e2)%Z, (e2 ?= e3)%Z, (e1 ?= e3)%Z,
      (m1 ?= m2)%positive, (m2 ?= m3)%positive, (m1 ?= m3)%positive;
      cbn in *; intros; try discriminate; try reflexivity;
      try (specialize (H eq_refl eq_refl); discriminate H).
Qed.
Lemma ltb_trans (x y z : float) :
  (x <? y) = true -> (y <? z) = true -> (x <? z) = true.
Proof. rewrite !ltb_spec. apply SFltb_trans. Qed.


Lemma abs_signed (x : float) : signed false (Prim2SF (abs x)).
Proof. rewrite abs_spec. destruct (Prim2SF x); cbn; auto. Qed.

Lemma SFdiv_signs (s1 s2 : bool) (r x : spec_float) :
  signed s1 r -> signed s2 x -> signed (xorb s1 s2) (SF64div r x).
Proof.
  destruct r as [s|s| |s m e], x as [s'|s'| |s' m' e']; cbn;
    intros H1 H2; subst; try reflexivity; try exact I.
  destruct (SFdiv_core_binary prec emax (Zpos m) e (Zpos m') e') as [[mz ez] lz].
  apply binary_round_aux_signed.
Qed.

Lemma signed_false_not_negative (r : float) :
  signed false (Prim2SF r) -> (r <? 0) = false.
Proof.
  rewrite ltb_spec. change (Prim2SF 0) with (S754_zero false). unfold SFltb.
  destruct (Prim2SF r) as [s|s| |s m e]; cbn; intros H; subst; reflexivity.
Qed.

Lemma max_signed (a b : float) :
  signed false (Prim2SF a) -> signed false (Prim2SF b) ->
  signed false (Prim2SF (PyFloat.max a b)).
Proof. unfold PyFloat.max. destruct (a <? b); auto. Qed.

Lemma Prim2SF_eps : Prim2SF 1e-9 = S754_finite false 4835703278458517 (-82).
Proof. vm_compute. reflexivity. Qed.

Lemma Prim2SF_one : Prim2SF 1 = S754_finite false 4503599627370496 (-52).
Proof. vm_compute. reflexivity. Qed.

Lemma Prim2SF_minus_one : Prim2SF (-1) = S754_finite true 4503599627370496 (-52).
Proof. vm_compute. reflexivity. Qed.

(** The divisor [max(|x|, 1e-9)] is never zero. *)
Lemma max_eps_not_zero (x : float) : (PyFloat.max (abs x) 1e-9 =? 0) = false.
Proof.
  unfold PyFloat.max. destruct (abs x <? 1e-9) eqn:Hlt; [reflexivity|].
  rewrite FloatAxioms.eqb_spec. rewrite ltb_spec, abs_spec, Prim2SF_eps in Hlt.
  rewrite abs_spec. change (Prim2SF 0) with (S754_zero false).
  unfold SFeqb, SFltb in *.
  destruct (Prim2SF x) as [s|s| |s m e]; try reflexivity.
  cbv in Hlt. discriminate Hlt.
Qed.

Lemma between_units (K : positive) (s : bool) (m : positive) (e : Z) :
  SFltb (S754_finite true K (-52)) (S754_finite s m e) = true ->
  SFltb (S754_finite s m e) (S754_finite false K (-52)) = true ->
  (e < -52 \/ (e = -52 /\ Zpos m < Zpos K))%Z.
Proof.
  unfold SFltb, SFcompare.
  change (PosDef.Pos.compare_cont Eq m K) with (m ?= K)%positive.
  change (PosDef.Pos.compare_cont Eq K m) with (K ?= m)%positive.
  intros Hlo Hhi. destruct s.
  - destruct (Z.compare_spec (-52) e); try discriminate; [|lia].
    destruct (Pos.compare_spec K m); try discriminate; lia.
  - destruct (Z.compare_spec e (-52)); try discriminate; [|lia].
    destruct (Pos.compare_spec m K); try discriminate; lia.
Qed.

Lemma shift_below_one (m : positive) (e : Z) :
  bounded prec emax m e = true ->
  (e < -52 \/ (e = -52 /\ Zpos m < 2 ^ 52))%Z ->
  match e with
  | Zneg _ => Z.shiftr (Zpos m) (- e)
  | _ => Z.shiftl (Zpos m) e
  end = 0%Z.
Proof.
  intros Hv Hsmall. pose proof (bounded_digits m e Hv) as [Hd _].
  pose proof (digits2_pos_upper m) as Hm.
  assert (Hpow : (2 ^ Zpos (digits2_pos m) <= 2 ^ 53)%Z)
    by (apply Z.pow_le_mono_r; unfold prec in Hd; lia).
  destruct e as [|p|p]; try lia.
  rewrite Z.shiftr_div_pow2 by lia. apply Z.div_small. split; [lia|].
  destruct Hsmall as [He|[He Hm']].
  - assert (2 ^ 53 <= 2 ^ (- Zneg p))%Z by (apply Z.pow_le_mono_r; lia). lia.
  - rewrite He. exact Hm'.
Qed.

(** A number strictly between -1 and 1 truncates to 0. *)
Lemma to_int_small (x : float) :
  (-1 <? x) = true -> (x <? 1) = true -> PyFloat.to_int x = Some 0%Z.
Proof.
  rewrite !ltb_spec, Prim2SF_one, Prim2SF_minus_one. unfold PyFloat.to_int.
  pose proof (Prim2SF_valid x) as Hv.
  destruct (Prim2SF x) as [s|s| |s m e].
  - reflexivity.
  - destruct s; intros Hlo Hhi; [discriminate Hlo|discriminate Hhi].
  - intros Hlo; discriminate Hlo.
  - intros Hlo Hhi.
    rewrite (shift_below_one m e Hv (between_units _ s m e Hlo Hhi)).
    destruct s; reflexivity.
Qed.

End PyFloatOrder.

(** ** More on the risk state *)

Module RiskStateFacts.
Import Strategy Main History PyFloatFacts PyFloatOrder GuardrailFacts Traces.
Local Open Scope float_scope.

#[local] Arguments update_drawdown_and_guardrail_at : simpl never.

Lemma peak_le_refl (p : option float) : peak_le p p.
Proof. destruct p; cbn; auto. Qed.

Lemma peak_le_trans (p q r : option float) :
  peak_le p q -> peak_le q r -> peak_le p r.
Proof.
  destruct p as [a|], q as [b|], r as [c|]; cbn; try tauto.
  intros [Hab| ->] [Hbc| ->]; auto.
  left. exact (ltb_trans _ _ _ Hab Hbc).
Qed.

Lemma step_peak_le (max_dd_pct : float) (o : op) (file : RiskFile) :
  peak_le (persisted_peak file) (persisted_peak (step max_dd_pct o file)).
Proof.
  destruct o as [equity| |paused|equity]; cbn [step].
  - rewrite update_unfold. apply new_peak_le.
  - apply peak_le_refl.
  - apply peak_le_refl.
  - apply (new_peak_le (peak_equity (load_risk_state file)) equity).
Qed.

(** X1: after every call of [update_drawdown_and_guardrail] the file holds
    the observed equity as [last_equity], the [user_paused] it held, and a
    peak that is not below that equity: [peak < equity] is false, and
    [equity <= peak] is true when both are numbers. *)
Theorem observe_peak_covers_equity (max_dd_pct equity : float) (file : RiskFile) :
  let state' := load_risk_state
                  (update_drawdown_and_guardrail_at max_dd_pct equity file).2 in
  last_equity state' = Some equity
  /\ user_paused state' = user_paused (load_risk_state file)
  /\ exists peak : float,
       peak_equity state' = Some peak
       /\ (update_drawdown_and_guardrail_at max_dd_pct equity file).1.2 = peak
       /\ (peak <? equity) = false
       /\ (is_nan peak = false -> is_nan equity = false ->
           (equity <=? peak) = true).
Proof.
  rewrite update_unfold. cbn. repeat split.
  eexists. repeat split.
  - apply new_peak_not_below.
  - intros Hp He. apply ltb_false_leb; [exact Hp|exact He|].
    apply new_peak_not_below.
Qed.

(** X2: the drawdown [update_drawdown_and_guardrail] returns is a number
    and is never negative, whatever the state and the equity (an equity of
    [nan] or an infinity included). *)
Theorem observe_drawdown_not_negative
    (max_dd_pct equity : float) (file : RiskFile) :
  (0 <=? (update_drawdown_and_guardrail_at max_dd_pct equity file).1.1.2) = true
  /\ is_nan (update_drawdown_and_guardrail_at max_dd_pct equity file).1.1.2 = false.
Proof.
  rewrite update_unfold. cbn [fst snd].
  pose proof (drawdown_not_negative
                (new_peak (peak_equity (load_risk_state file)) equity) equity)
    as Hdd.
  split; [exact Hdd|].
  rewrite is_nan_spec. rewrite leb_spec in Hdd. unfold SFleb in Hdd.
  destruct (Prim2SF (drawdown _ equity)); try reflexivity.
  destruct (Prim2SF 0); discriminate Hdd.
Qed.

(** X3: [clear_auto_pause] resets the flag and nothing else: the peak stays.
    So the next call of [update_drawdown_and_guardrail] returns the
    drawdown and the peak it would have returned without the clearing, and
    pauses again exactly when that drawdown reaches the threshold. *)
Theorem clear_keeps_peak (max_dd_pct equity : float) (file : RiskFile) :
  let r := (update_drawdown_and_guardrail_at max_dd_pct equity file).1 in
  let r' := (update_drawdown_and_guardrail_at max_dd_pct equity
               (clear_auto_pause file)).1 in
  persisted_peak (clear_auto_pause file) = persisted_peak file
  /\ last_equity (load_risk_state (clear_auto_pause file))
     = last_equity (load_risk_state file)
  /\ is_user_paused (clear_auto_pause file) = is_user_paused file
  /\ r'.1.2 = r.1.2
  /\ r'.2 = r.2
  /\ r'.1.1 = (max_dd_pct <=? r.1.2).
Proof.
  cbv zeta. rewrite !update_unfold. cbn. rewrite orb_false_r.
  repeat split.
Qed.

(** X4: the two pause flags are independent. The Start and Stop buttons set
    [user_paused] and leave [auto_paused] and the peak; a guardrail update,
    [clear_auto_pause] and the dashboard snapshot leave [user_paused]. *)
Theorem pause_flags_independent :
  (forall (paused : bool) (file : RiskFile),
     is_user_paused (Dashboard.set_user_paused paused file) = paused
     /\ latched (Dashboard.set_user_paused paused file) = latched file
     /\ persisted_peak (Dashboard.set_user_paused paused file)
        = persisted_peak file)
  /\ (forall (max_dd_pct : float) (o : op) (file : RiskFile),
        (forall paused : bool, o <> SetUserPaused paused) ->
        is_user_paused (step max_dd_pct o file) = is_user_paused file).
Proof.
  split.
  - intros paused file. repeat split.
  - intros max_dd_pct [equity| |paused|equity] file Ho; cbn [step].
    + rewrite update_unfold. reflexivity.
    + reflexivity.
    + destruct (Ho paused eq_refl).
    + reflexivity.
Qed.

(** Stop, then an observation under water, then the clearing of the latch:
    the manual pause is still on. *)
Lemma pause_flags_independent_witness :
  is_user_paused
    (step 0.05 ClearAutoPause
       (step 0.05 (Observe 9000)
          (Dashboard.set_user_paused true
             (Some {| peak_equity := Some 10000; auto_paused := false;
                      last_equity := None; user_paused := false |}))))
  = true.
Proof.
  rewrite (proj2 pause_flags_independent 0.05 ClearAutoPause)
    by (intros paused; discriminate).
  rewrite (proj2 pause_flags_independent 0.05 (Observe 9000))
    by (intros paused; discriminate).
  apply (proj1 pause_flags_independent true).
Defined.

(** X5: no writer of the risk-state file lowers the peak: over any list of
    guardrail updates, clearings, Start and Stop clicks and dashboard
    snapshots, the peak at the end is greater than the peak at the start or
    is the same number. *)
Theorem every_writer_keeps_peak (max_dd_pct : float) (ops : list op)
    (file : RiskFile) :
  peak_le (persisted_peak file) (persisted_peak (run_ops max_dd_pct ops file)).
Proof.
  unfold run_ops. revert file.
  induction ops as [|o ops IH]; intros file; cbn [foldl].
  - apply peak_le_refl.
  - apply (peak_le_trans _ (persisted_peak (step max_dd_pct o file))).
    + apply step_peak_le.
    + apply IH.
Qed.

Lemma observations_running_maximum (max_dd_pct : float) (equities : list float) :
  forall (file : RiskFile) (q : float),
    persisted_peak file = Some q ->
    exists p : float,
      persisted_peak (observations max_dd_pct equities file).2 = Some p
      /\ (p = q \/ ((q <? p) = true /\ p ∈ equities))
      /\ Forall (fun e => (p <? e) = false) equities.
Proof.
  induction equities as [|e equities IH]; intros file q Hq; cbn [observations].
  - exists q. split; [exact Hq|]. split; [left; reflexivity|constructor].
  - rewrite update_unfold. cbv zeta.
    match goal with |- context [observations _ _ ?f] =>
      destruct (IH f (new_peak (Some q) e)) as (p & Hp & Hrel & Hall);
        [unfold persisted_peak in *; cbn; rewrite Hq; reflexivity|];
      destruct (observations max_dd_pct equities f) as [rs file'] end.
    cbn [snd] in *. exists p. split; [exact Hp|].
    cbn [new_peak] in Hrel.
    destruct (q <? e) eqn:Hqe.
    + assert (Hep : p = e \/ (e <? p) = true) by (destruct Hrel as [->|[H _]]; auto).
      split.
      * right. split.
        -- destruct Hep as [->|Hep]; [exact Hqe|exact (ltb_trans _ _ _ Hqe Hep)].
        -- destruct Hrel as [->|[_ Hin]]; [left|right; exact Hin].
      * constructor; [|exact Hall].
        destruct Hep as [->|Hep]; [apply ltb_irrefl|apply ltb_asym, Hep].
    + split.
      * destruct Hrel as [->|[Hlt Hin]]; [left; reflexivity|].
        right. split; [exact Hlt|right; exact Hin].
      * constructor; [|exact Hall].
        destruct Hrel as [->|[Hlt _]]; [exact Hqe|].
        destruct (p <? e) eqn:Hpe; [|reflexivity].
        rewrite (ltb_trans _ _ _ Hlt Hpe) in Hqe. discriminate Hqe.
Qed.

(** X6: from a fresh state (no file), after any non-empty sequence of
    guardrail updates the peak in the file is one of the observed equities,
    and no observed equity is above it: it is their running maximum. *)
Theorem peak_is_running_maximum (max_dd_pct : float) (equities : list float) :
  equities <> [] ->
  exists p : float,
    persisted_peak (observations max_dd_pct equities None).2 = Some p
    /\ p ∈ equities
    /\ Forall (fun e => (p <? e) = false) equities.
Proof.
  destruct equities as [|e equities]; [congruence|]. intros _.
  cbn [observations]. rewrite update_unfold. cbv zeta.
  match goal with |- context [observations _ _ ?f] =>
    destruct (observations_running_maximum max_dd_pct equities f e eq_refl)
      as (p & Hp & Hrel & Hall);
    destruct (observations max_dd_pct equities f) as [rs file'] end.
  cbn [snd] in *. exists p. split; [exact Hp|]. split.
  - destruct Hrel as [->|[_ Hin]]; [left|right; exact Hin].
  - constructor; [|exact Hall].
    destruct Hrel as [->|[Hlt _]]; [apply ltb_irrefl|apply ltb_asym, Hlt].
Qed.

(** Equities 10000, 9400, 10200, 10100. *)
Lemma peak_is_running_maximum_witness :
  exists p : float,
    persisted_peak (observations 0.05 [10000; 9400; 10200; 10100] None).2 = Some p
    /\ p ∈ [10000; 9400; 10200; 10100]
    /\ Forall (fun e => (p <? e) = false) [10000; 9400; 10200; 10100].
Proof.
  apply (peak_is_running_maximum 0.05 [10000; 9400; 10200; 10100]).
  discriminate.
Defined.

(** X7: the dashboard snapshot keeps the same books as the trading loop:
    it writes the peak and the last equity a guardrail update would write
    for that equity. It never sets [auto_paused], however deep the
    drawdown, and leaves [user_paused]. *)
Theorem dashboard_snapshot_agrees (max_dd_pct equity : float) (file : RiskFile) :
  let observed := (update_drawdown_and_guardrail_at max_dd_pct equity file).2 in
  persisted_peak (Dashboard.snapshot equity file) = persisted_peak observed
  /\ last_equity (load_risk_state (Dashboard.snapshot equity file))
     = last_equity (load_risk_state observed)
  /\ latched (Dashboard.snapshot equity file) = latched file
  /\ is_user_paused (Dashboard.snapshot equity file) = is_user_paused file.
Proof.
  cbv zeta. rewrite update_unfold. repeat split.
Qed.

End RiskStateFacts.

(** ** More on the trading loop *)

Module LoopFacts.
Import Strategy Main History Crossover Backtest Traces.
Import PyFloatFacts PyFloatOrder GuardrailFacts StrategyFacts.
Local Open Scope float_scope.

#[local] Arguments update_drawdown_and_guardrail_at : simpl never.
#[local] Arguments iloc : simpl never.
#[local] Arguments rolling_mean : simpl never.

Lemma iloc_total (s : list float) (k : nat) :
  (1 <= k <= length s)%nat -> exists x, iloc s (- Z.of_nat k) = Ok x.
Proof.
  intros Hk.
  destruct (lookup_lt_is_Some_2 s (length s - k)) as [x Hx]; [lia|].
  exists x. apply iloc_from_end; assumption.
Qed.

Lemma iloc_nil (i : Z) : iloc [] i = Raise IndexError.
Proof.
  unfold iloc. cbv zeta.
  match goal with |- (if ?b then _ else _) = _ => destruct b end;
    [rewrite lookup_nil|]; reflexivity.
Qed.

(** A pass whose broker answers come through, in terms of the last rows. *)
Lemma loop_body_analysis (t : Tick) (file : RiskFile) (equity : float)
    (df : DataFrame) (close : list float) :
  account_equity t = Ok equity -> bars t = Ok df -> df !! "close" = Some close ->
  loop_body t file
  = match last_rows (rolling_mean FAST close) (rolling_mean SLOW close) with
    | Raise e => (Failed e, (update_drawdown_and_guardrail equity file).2)
    | Ok (signal, reason, confidence) =>
        (trade (is_user_paused (update_drawdown_and_guardrail equity file).2)
               (update_drawdown_and_guardrail equity file).1.1.1
               signal reason confidence (position t),
         (update_drawdown_and_guardrail equity file).2)
    end.
Proof.
  intros Hacc Hbars Hclose. unfold loop_body. rewrite Hacc, Hbars.
  destruct (update_drawdown_and_guardrail equity file) as [[[paused dd] peak] file'].
  cbn [fst snd]. rewrite bind_Ok, (getitem_Some _ _ _ Hclose), bind_Ok. cbv zeta.
  rewrite (getitem_Some _ "close" close)
    by (rewrite lookup_insert_ne; [exact Hclose|apply sma_column_not_close]).
  rewrite bind_Ok.
  set (df2 := <["sma_" +:+ pretty SLOW := rolling_mean SLOW close]>
                (<["sma_" +:+ pretty FAST := rolling_mean FAST close]> df)).
  assert (Hclose2 : df2 !! "close" = Some close).
  { unfold df2. rewrite !lookup_insert_ne; [exact Hclose| |];
      apply sma_column_not_close. }
  destruct (lookup_sma_columns "sma_" (fun w => rolling_mean w close) df FAST SLOW)
    as [Hf2 Hs2]. fold df2 in Hf2, Hs2.
  destruct (sma_cross_signal_columns df2 FAST SLOW close Hclose2)
    as (df' & Hf & Hs & ->).
  unfold describe_sma_signal, last_rows. cbv zeta.
  rewrite !(getitem_Some _ _ _ Hf), !(getitem_Some _ _ _ Hs),
    !(getitem_Some _ _ _ Hf2), !(getitem_Some _ _ _ Hs2), !bind_Ok.
  destruct (iloc (rolling_mean SLOW close) (-1)) as [cs|e] eqn:Hcs;
    [|reflexivity].
  rewrite !bind_Ok. destruct (is_nan cs); [reflexivity|].
  destruct (iloc (rolling_mean FAST close) (-2)) as [pf|e] eqn:Hpf;
    [|reflexivity].
  rewrite !bind_Ok.
  destruct (iloc (rolling_mean SLOW close) (-2)) as [ps|e] eqn:Hps;
    [|reflexivity].
  rewrite !bind_Ok.
  destruct (iloc (rolling_mean FAST close) (-1)) as [cf|e] eqn:Hcf;
    [|reflexivity].
  rewrite !bind_Ok, ?Hcs, !bind_Ok.
  unfold cross_word, verdict, crossed_above, crossed_below.
  destruct ((pf <=? ps) && (cs <? cf)); [reflexivity|].
  destruct ((ps <=? pf) && (cf <? cs)); reflexivity.
Qed.

Lemma trade_placed_signal (user_paused auto_paused : bool)
    (signal : option string) (reason : string) (confidence : float)
    (position : result float) (side : string) (qty : Z) (r : string) (c : float) :
  trade user_paused auto_paused signal reason confidence position
  = Placed side qty r c ->
  r = reason /\ c = confidence
  /\ ((side = "buy" /\ signal = Some "buy" /\ qty = QTY)
      \/ (side = "sell" /\ signal = Some "sell" /\ (0 < qty)%Z)).
Proof.
  unfold trade, should_buy, should_sell, DRY_RUN.
  destruct user_paused, auto_paused; try discriminate.
  destruct signal as [s|]; [|discriminate]. cbv zeta. cbn [orb].
  destruct (bool_decide (Some s = Some "buy")) eqn:Hb;
    destruct (position_qty position <=? 0)%Z eqn:Hle;
    destruct (bool_decide (Some s = Some "sell")) eqn:Hs;
    destruct (0 <? position_qty position)%Z eqn:Hlt;
    cbn; intros H; try discriminate H; injection H as <- <- <- <-;
    repeat split;
    try apply bool_decide_eq_true in Hb; try apply bool_decide_eq_true in Hs;
    try apply Z.ltb_lt in Hlt; auto.
Qed.

(** X8: an order leaves the pass only when neither pause flag is on and the
    signal is "buy" or "sell". A buy order is for [QTY] shares and needs a
    position of 0 or less; a sell order is for the whole position held,
    which is positive: the pass never sells short and never adds to a long
    position. The order carries the reason and the confidence of the
    signal. *)
Theorem order_needs_signal_and_side (user_paused auto_paused : bool)
    (signal : option string) (reason : string) (confidence : float)
    (position : result float) (side : string) (qty : Z) (r : string) (c : float) :
  trade user_paused auto_paused signal reason confidence position
  = Placed side qty r c ->
  user_paused = false /\ auto_paused = false /\ r = reason /\ c = confidence
  /\ ((side = "buy" /\ signal = Some "buy" /\ qty = QTY
       /\ (position_qty position <= 0)%Z)
      \/ (side = "sell" /\ signal = Some "sell" /\ qty = position_qty position
          /\ (0 < qty)%Z)).
Proof.
  unfold trade, should_buy, should_sell, DRY_RUN.
  destruct user_paused, auto_paused; try discriminate.
  destruct signal as [s|]; [|discriminate]. cbv zeta. cbn [orb].
  destruct (bool_decide (Some s = Some "buy")) eqn:Hb;
    destruct (Z.leb_spec (position_qty position) 0) as [Hle|Hle];
    destruct (bool_decide (Some s = Some "sell")) eqn:Hs;
    destruct (Z.ltb_spec 0 (position_qty position)) as [Hlt|Hlt];
    cbn; intros H; try discriminate H; injection H as <- <- <- <-;
    try apply bool_decide_eq_true in Hb; try apply bool_decide_eq_true in Hs;
    repeat split; auto.
Qed.

(** A sell signal with 100 shares held. *)
Lemma order_needs_signal_and_side_witness :
  false = false /\ false = false /\ "r" = "r" /\ 0.25 = 0.25
  /\ (("sell" = "buy" /\ Some "sell" = Some "buy" /\ 100%Z = QTY
       /\ (position_qty (Ok 100%float) <= 0)%Z)
      \/ ("sell" = "sell" /\ Some "sell" = Some "sell"
          /\ 100%Z = position_qty (Ok 100%float) /\ (0 < 100)%Z)).
Proof.
  exact (order_needs_signal_and_side false false (Some "sell") "r" 0.25 (Ok 100)
           "sell" 100 "r" 0.25 eq_refl).
Defined.

(** X9: a position of less than one share, long or short, reads as flat:
    [int(float(qty))] truncates it to 0. A buy signal then orders [QTY]
    more shares, and a sell signal orders nothing. *)
Theorem fractional_position_reads_flat (qty : float) (reason : string)
    (confidence : float) :
  (-1 <? qty) = true -> (qty <? 1) = true ->
  position_qty (Ok qty) = 0%Z
  /\ trade false false (Some "buy") reason confidence (Ok qty)
     = Placed "buy" QTY reason confidence
  /\ trade false false (Some "sell") reason confidence (Ok qty)
     = Reported "HOLD" 0.
Proof.
  intros Hlo Hhi.
  assert (Hq : position_qty (Ok qty) = 0%Z)
    by (unfold position_qty; rewrite (to_int_small qty Hlo Hhi); reflexivity).
  split; [exact Hq|].
  unfold trade, should_buy, should_sell. rewrite Hq. split; reflexivity.
Qed.

(** Half a share. *)
Lemma fractional_position_reads_flat_witness :
  position_qty (Ok 0.5) = 0%Z
  /\ trade false false (Some "buy") "r" 0.25 (Ok 0.5) = Placed "buy" QTY "r" 0.25
  /\ trade false false (Some "sell") "r" 0.25 (Ok 0.5) = Reported "HOLD" 0.
Proof.
  exact (fractional_position_reads_flat 0.5 "r" 0.25 eq_refl eq_refl).
Defined.

Lemma loop_body_flags (t : Tick) (file : RiskFile) :
  is_user_paused (loop_body t file).2 = is_user_paused file
  /\ (latched file = true ->
      latched (loop_body t file).2 = true /\ order_of (loop_body t file).1 = None)
  /\ (is_user_paused file = true -> order_of (loop_body t file).1 = None).
Proof.
  unfold loop_body.
  destruct (account_equity t) as [equity|e]; [|repeat split; auto].
  unfold update_drawdown_and_guardrail. rewrite update_unfold. cbv zeta.
  match goal with
  | |- context [match ?a with Ok _ => _ | Raise _ => _ end] =>
      destruct a as [[[signal reason] confidence]|e]
  end; cbn [fst snd]; unfold is_user_paused, latched;
    cbn [load_risk_state user_paused auto_paused].
  - split; [reflexivity|]. split.
    + intros ->. rewrite orb_true_r. split; [reflexivity|].
      unfold trade. destruct (user_paused (load_risk_state file)); reflexivity.
    + intros ->. reflexivity.
  - split; [reflexivity|]. split; [|reflexivity].
    intros ->. split; [apply orb_true_r|reflexivity].
Qed.

(** X10: while a pause flag is on in the file, no pass of the loop submits
    an order, whatever the broker answers (failures included) and however
    many passes run; the loop leaves [user_paused] as it is and never takes
    [auto_paused] back to false. *)
Theorem paused_loop_places_no_order (ticks : list Tick) (file : RiskFile) :
  latched file = true \/ is_user_paused file = true ->
  Forall (fun o => order_of o = None) (run_loop ticks file).1
  /\ is_user_paused (run_loop ticks file).2 = is_user_paused file
  /\ (latched file = true -> latched (run_loop ticks file).2 = true).
Proof.
  revert file. induction ticks as [|t ticks IH]; intros file Hpaused;
    cbn [run_loop].
  - repeat split; auto.
  - destruct (loop_body_flags t file) as (Huser & Hlatch & Hmanual).
    destruct (loop_body t file) as [o file1]. cbn [fst snd] in *.
    assert (Hpaused1 : latched file1 = true \/ is_user_paused file1 = true).
    { destruct Hpaused as [H|H]; [left; apply Hlatch, H|right; congruence]. }
    destruct (IH file1 Hpaused1) as (Hall & Huser1 & Hlatch1).
    destruct (run_loop ticks file1) as [os file2]. cbn [fst snd] in *.
    split; [|split].
    + constructor; [|exact Hall].
      destruct Hpaused as [H|H]; [apply Hlatch, H|apply Hmanual, H].
    + congruence.
    + intros H. apply Hlatch1, Hlatch, H.
Qed.

(** Two passes on a latched file: a crossing the broker reports, then a
    failed account request. *)
Lemma paused_loop_places_no_order_witness :
  Forall (fun o => order_of o = None)
    (run_loop
       [ {| account_equity := Ok 10200;
            bars := Ok {[ "close" := [1; 2; 3] ]};
            position := Ok 0 |};
         {| account_equity := Raise APIError;
            bars := Raise APIError; position := Raise APIError |} ]
       (Some {| peak_equity := Some 10000; auto_paused := true;
                last_equity := Some 9400; user_paused := false |})).1
  /\ is_user_paused
       (run_loop
          [ {| account_equity := Ok 10200;
               bars := Ok {[ "close" := [1; 2; 3] ]};
               position := Ok 0 |};
            {| account_equity := Raise APIError;
               bars := Raise APIError; position := Raise APIError |} ]
          (Some {| peak_equity := Some 10000; auto_paused := true;
                   last_equity := Some 9400; user_paused := false |})).2
     = is_user_paused
         (Some {| peak_equity := Some 10000; auto_paused := true;
                  last_equity := Some 9400; user_paused := false |})
  /\ (latched
        (Some {| peak_equity := Some 10000; auto_paused := true;
                 last_equity := Some 9400; user_paused := false |}) = true ->
      latched
        (run_loop
           [ {| account_equity := Ok 10200;
                bars := Ok {[ "close" := [1; 2; 3] ]};
                position := Ok 0 |};
             {| account_equity := Raise APIError;
                bars := Raise APIError; position := Raise APIError |} ]
           (Some {| peak_equity := Some 10000; auto_paused := true;
                    last_equity := Some 9400; user_paused := false |})).2
      = true).
Proof.
  apply paused_loop_places_no_order. left. reflexivity.
Defined.

Lemma loop_body_unreadable (t : Tick) (file : RiskFile) :
  (exists e, account_equity t = Raise e)
  \/ (exists e, bars t = Raise e)
  \/ (exists df, bars t = Ok df /\ df !! "close" = None) ->
  exists e, (loop_body t file).1 = Failed e.
Proof.
  unfold loop_body. intros [[e He]|Hbars].
  - rewrite He. eauto.
  - destruct (account_equity t) as [equity|e]; [|eauto].
    destruct (update_drawdown_and_guardrail equity file)
      as [[[paused dd] peak] file'].
    destruct Hbars as [[e ->]|(df & -> & Hclose)].
    + eauto.
    + rewrite bind_Ok.
      assert (getitem df "close" = Raise (KeyError "close")) as ->
        by (unfold getitem; rewrite Hclose; reflexivity).
      eauto.
Qed.

Lemma cross_word_buy (pf ps cf cs : float) :
  cross_word pf ps cf cs = "buy" ->
  (verdict FAST SLOW pf ps cf cs).1.2 = buy_reason FAST SLOW.
Proof.
  unfold cross_word, verdict.
  destruct (crossed_above pf ps cf cs); [reflexivity|].
  destruct (crossed_below pf ps cf cs); discriminate.
Qed.

Lemma cross_word_sell (pf ps cf cs : float) :
  cross_word pf ps cf cs = "sell" ->
  (verdict FAST SLOW pf ps cf cs).1.2 = sell_reason FAST SLOW.
Proof.
  unfold cross_word, verdict.
  destruct (crossed_above pf ps cf cs); [discriminate|].
  destruct (crossed_below pf ps cf cs); [reflexivity|discriminate].
Qed.

(** X11: the reason a pass of the loop hands to [place_and_log] always
    names the side of the order: a buy order carries "BUY — SMA(10)
    crossed above SMA(20)" and is for [QTY] shares, a sell order carries
    "SELL — SMA(10) crossed below SMA(20)" and is for a positive number of
    shares. [sma_cross_signal] and [describe_sma_signal] read the same
    rows, so the two never disagree. *)
Theorem order_reason_matches_side (t : Tick) (file file' : RiskFile)
    (side : string) (qty : Z) (reason : string) (confidence : float) :
  loop_body t file = (Placed side qty reason confidence, file') ->
  (side = "buy" /\ qty = QTY /\ reason = buy_reason FAST SLOW)
  \/ (side = "sell" /\ (0 < qty)%Z /\ reason = sell_reason FAST SLOW).
Proof.
  intros Hbody.
  destruct (account_equity t) as [equity|e] eqn:Hacc.
  2: { destruct (loop_body_unreadable t file) as [e' He'];
         [left; eauto|rewrite Hbody in He'; discriminate He']. }
  destruct (bars t) as [df|e] eqn:Hbars.
  2: { destruct (loop_body_unreadable t file) as [e' He'];
         [right; left; eauto|rewrite Hbody in He'; discriminate He']. }
  destruct (df !! "close") as [close|] eqn:Hclose.
  2: { destruct (loop_body_unreadable t file) as [e' He'];
         [right; right; eauto|rewrite Hbody in He'; discriminate He']. }
  rewrite (loop_body_analysis t file equity df close Hacc Hbars Hclose) in Hbody.
  unfold last_rows in Hbody.
  destruct (iloc (rolling_mean SLOW close) (-1)) as [cs|e] eqn:Hcs;
    [|discriminate Hbody].
  rewrite bind_Ok in Hbody. destruct (is_nan cs).
  { cbn in Hbody. injection Hbody as Hbody _. unfold trade in Hbody.
    destruct (is_user_paused _); [discriminate Hbody|].
    match type of Hbody with
    | context [if ?b then _ else _] => destruct b
    end; discriminate Hbody. }
  destruct (iloc (rolling_mean FAST close) (-2)) as [pf|e];
    [|discriminate Hbody].
  rewrite bind_Ok in Hbody.
  destruct (iloc (rolling_mean SLOW close) (-2)) as [ps|e];
    [|discriminate Hbody].
  rewrite bind_Ok in Hbody.
  destruct (iloc (rolling_mean FAST close) (-1)) as [cf|e];
    [|discriminate Hbody].
  rewrite ?bind_Ok, ?Hcs, ?bind_Ok in Hbody. cbn [mret result_ret] in Hbody.
  injection Hbody as Hbody _.
  apply trade_placed_signal in Hbody
    as (-> & _ & [(-> & [= Hword] & ->)|(-> & [= Hword] & Hqty)]).
  - left. repeat split. apply cross_word_buy, Hword.
  - right. repeat split; [exact Hqty|]. apply cross_word_sell, Hword.
Qed.

(** Twenty closes of 10 and one of 11, no position: the fast average
    leaves the slow one upwards. *)
Lemma order_reason_matches_side_witness :
  ("buy" = "buy" /\ 1000%Z = QTY
   /\ "BUY — SMA(10) crossed above SMA(20)" = buy_reason FAST SLOW)
  \/ ("buy" = "sell" /\ (0 < 1000)%Z
      /\ "BUY — SMA(10) crossed above SMA(20)" = sell_reason FAST SLOW).
Proof.
  apply (order_reason_matches_side
           {| account_equity := Ok 10000;
              bars := Ok {[ "close" := replicate 20 10 ++ [11] ]};
              position := Raise APIError |}
           None
           (Some {| peak_equity := Some 10000; auto_paused := false;
                    last_equity := Some 10000; user_paused := false |})
           "buy" 1000 "BUY — SMA(10) crossed above SMA(20)"
           0.004975124378109346).
  vm_compute. reflexivity.
Defined.

(** X12: with fewer than [SLOW] bars from the feed, none included, a pass
    of the loop submits no order, whatever the account, the position and
    the risk state. *)
Theorem short_history_places_no_order (t : Tick) (file : RiskFile)
    (df : DataFrame) (close : list float) :
  bars t = Ok df -> df !! "close" = Some close -> (length close < SLOW)%nat ->
  order_of (loop_body t file).1 = None.
Proof.
  intros Hbars Hclose Hshort.
  destruct (account_equity t) as [equity|e] eqn:Hacc.
  2: { destruct (loop_body_unreadable t file) as [e' ->]; [left; eauto|].
       reflexivity. }
  rewrite (loop_body_analysis t file equity df close Hacc Hbars Hclose).
  unfold last_rows.
  destruct close as [|c0 close'] eqn:Hc.
  - change (rolling_mean SLOW []) with (@nil float). rewrite iloc_nil.
    reflexivity.
  - rewrite <- Hc in *. assert (Hlen : (1 <= length close)%nat)
      by (rewrite Hc; cbn; lia).
    destruct (lookup_lt_is_Some_2 (rolling_mean SLOW close) (length close - 1))
      as [cs Hcs]; [rewrite length_rolling_mean; lia|].
    rewrite (iloc_last _ cs) by (rewrite length_rolling_mean; assumption).
    rewrite (rolling_mean_warm_up SLOW close _ cs Hcs) by lia.
    rewrite bind_Ok. change (is_nan nan) with true. cbn.
    unfold trade. destruct (is_user_paused _); [reflexivity|].
    match goal with
    | |- context [if ?b then _ else _] => destruct b
    end; reflexivity.
Qed.

(** Three bars. *)
Lemma short_history_places_no_order_witness :
  order_of
    (loop_body {| account_equity := Ok 10000;
                  bars := Ok {[ "close" := [3; 2; 1] ]};
                  position := Ok 0 |} None).1
  = None.
Proof.
  apply (short_history_places_no_order _ None {[ "close" := [3; 2; 1] ]} [3; 2; 1]).
  - reflexivity.
  - vm_compute. reflexivity.
  - unfold SLOW. cbn. lia.
Defined.

Lemma df_from_bars_close (bars : list Bars.Bar) :
  Bars.df_from_bars bars !! "close" = Some (Bars.c <$> bars).
Proof.
  unfold Bars.df_from_bars.
  rewrite !lookup_insert_ne by discriminate. apply lookup_insert_eq.
Qed.

Lemma last_rows_total (fast slow : nat) (close : list float) :
  close <> [] -> (2 <= slow)%nat ->
  exists cs : float,
    iloc (rolling_mean slow close) (-1) = Ok cs
    /\ (is_nan cs = false ->
        exists pf ps cf : float,
          iloc (rolling_mean fast close) (-2) = Ok pf
          /\ iloc (rolling_mean slow close) (-2) = Ok ps
          /\ iloc (rolling_mean fast close) (-1) = Ok cf).
Proof.
  intros Hne Hslow.
  assert (Hlen : (1 <= length close)%nat) by (destruct close; [congruence|cbn; lia]).
  destruct (lookup_lt_is_Some_2 (rolling_mean slow close) (length close - 1))
    as [cs Hcs]; [rewrite length_rolling_mean; lia|].
  exists cs. split.
  - apply iloc_last; rewrite length_rolling_mean; assumption.
  - intros Hnan.
    assert (Hrows : (2 <= length close)%nat).
    { destruct (decide (S (length close - 1) < slow)%nat) as [Hshort|Hlong]; [|lia].
      rewrite (rolling_mean_warm_up slow close _ _ Hcs Hshort) in Hnan.
      discriminate Hnan. }
    destruct (iloc_total (rolling_mean fast close) 2) as [pf Hpf];
      [rewrite length_rolling_mean; lia|].
    destruct (iloc_total (rolling_mean slow close) 2) as [ps Hps];
      [rewrite length_rolling_mean; lia|].
    destruct (iloc_total (rolling_mean fast close) 1) as [cf Hcf];
      [rewrite length_rolling_mean; lia|].
    exists pf, ps, cf. auto.
Qed.

(** X13: on the frame [df_from_bars] makes of at least one bar, and with a
    slow window of 2 or more, the two detectors raise nothing: neither a
    missing "close" column nor a row out of bounds. *)
Theorem detectors_total_on_bars (bars : list Bars.Bar) (fast slow : nat) :
  bars <> [] -> (2 <= slow)%nat ->
  (exists signal : option string,
     sma_cross_signal (Bars.df_from_bars bars) fast slow = Ok signal)
  /\ (exists answer : string * string * float,
        Dashboard.latest_signal (Bars.df_from_bars bars) fast slow = Ok answer).
Proof.
  intros Hbars Hslow.
  pose proof (df_from_bars_close bars) as Hclose.
  assert (Hne : Bars.c <$> bars <> []) by (destruct bars; [congruence|discriminate]).
  destruct (last_rows_total fast slow _ Hne Hslow) as (cs & Hcs & Hrest).
  split.
  - destruct (sma_cross_signal_columns _ fast slow _ Hclose) as (df' & Hf & Hs & ->).
    rewrite (getitem_Some _ _ _ Hs), bind_Ok, Hcs, bind_Ok.
    destruct (is_nan cs) eqn:Hnan; [eauto|].
    destruct (Hrest eq_refl) as (pf & ps & cf & Hpf & Hps & Hcf).
    rewrite ?(getitem_Some _ _ _ Hf), ?(getitem_Some _ _ _ Hs), ?bind_Ok,
      ?Hpf, ?bind_Ok, ?Hps, ?bind_Ok, ?Hcf, ?bind_Ok, ?Hcs, ?bind_Ok.
    destruct (_ && _); [eauto|]. destruct (_ && _); eauto.
  - unfold Dashboard.latest_signal.
    rewrite (compute_smas_Ok _ fast slow _ Hclose), bind_Ok.
    destruct (lookup_sma_columns "SMA" (fun w => rolling_mean w (Bars.c <$> bars))
                (Bars.df_from_bars bars) fast slow) as [Hf Hs].
    destruct (is_nan cs) eqn:Hnan.
    + rewrite (latest_signal_reason_undefined _ fast slow _ cs Hs Hcs Hnan). eauto.
    + destruct (Hrest eq_refl) as (pf & ps & cf & Hpf & Hps & Hcf).
      rewrite (latest_signal_reason_defined _ fast slow _ _ pf ps cf cs
                 Hf Hs Hpf Hps Hcf Hcs Hnan). eauto.
Qed.

(** One bar, windows 10 and 20. *)
Lemma detectors_total_on_bars_witness :
  (exists signal : option string,
     sma_cross_signal
       (Bars.df_from_bars
          [ {| Bars.t := 0; Bars.o := 1; Bars.h := 2; Bars.l := 1;
               Bars.c := 2; Bars.v := 100 |} ]) 10 20 = Ok signal)
  /\ (exists answer : string * string * float,
        Dashboard.latest_signal
          (Bars.df_from_bars
             [ {| Bars.t := 0; Bars.o := 1; Bars.h := 2; Bars.l := 1;
                  Bars.c := 2; Bars.v := 100 |} ]) 10 20 = Ok answer).
Proof.
  apply detectors_total_on_bars; [discriminate|lia].
Defined.

Lemma loop_body_file (t : Tick) (file : RiskFile) :
  (loop_body t file).2
  = match account_equity t with
    | Ok equity => (update_drawdown_and_guardrail equity file).2
    | Raise _ => file
    end.
Proof.
  unfold loop_body. destruct (account_equity t) as [equity|e]; [|reflexivity].
  destruct (update_drawdown_and_guardrail equity file)
    as [[[paused dd] peak] file'].
  match goal with
  | |- context [match ?a with Ok _ => _ | Raise _ => _ end] =>
      destruct a as [[[signal reason] confidence]|e]
  end; reflexivity.
Qed.

(** X22: the guardrail runs first in every pass, so the risk-state file
    after any number of passes is the file the guardrail leaves after the
    equities the broker reported, in order: a price feed that fails, a
    position request that fails or an order change nothing of it, and a
    pass whose account request fails leaves the file as it is. *)
Theorem loop_file_follows_equities (ticks : list Tick) (file : RiskFile) :
  (run_loop ticks file).2 = (observations MAX_DD_PCT (readable ticks) file).2.
Proof.
  revert file. induction ticks as [|t ticks IH]; intros file; [reflexivity|].
  cbn [run_loop]. pose proof (loop_body_file t file) as Hfile.
  destruct (loop_body t file) as [o file1]. cbn [snd] in Hfile. subst file1.
  unfold readable. cbn [omap list_omap]. fold (readable ticks).
  destruct (account_equity t) as [equity|e].
  - cbn [observations]. fold (update_drawdown_and_guardrail equity file).
    destruct (update_drawdown_and_guardrail equity file) as [r file1].
    cbn [snd]. specialize (IH file1).
    destruct (run_loop ticks file1) as [os file2].
    destruct (observations MAX_DD_PCT (readable ticks) file1) as [rs file3].
    exact IH.
  - specialize (IH file). destruct (run_loop ticks file) as [os file2].
    exact IH.
Qed.

End LoopFacts.

(** ** More on the detectors *)

Module DetectorFacts.
Import Strategy Crossover PyFloatFacts PyFloatOrder StrategyFacts.
Local Open Scope float_scope.

#[local] Abbreviation signed := PyFloat.signed.
#[local] Arguments iloc : simpl never.
#[local] Arguments rolling_mean : simpl never.

Lemma getitem_None (df : DataFrame) (col : string) :
  df !! col = None -> getitem df col = Raise (KeyError col).
Proof. unfold getitem. intros ->. reflexivity. Qed.


(** X15: [sma_cross_signal] reads the "close" column and nothing else: two
    frames with the same closes get the same answer, whatever other
    columns they hold, stale "sma_" columns included. *)
Theorem sma_cross_signal_reads_close_only (df1 df2 : DataFrame) (fast slow : nat) :
  df1 !! "close" = df2 !! "close" ->
  sma_cross_signal df1 fast slow = sma_cross_signal df2 fast slow.
Proof.
  intros Hsame. destruct (df1 !! "close") as [close|] eqn:Hclose1.
  - symmetry in Hsame.
    destruct (sma_cross_signal_columns df1 fast slow close Hclose1)
      as (df1' & Hf1 & Hs1 & ->).
    destruct (sma_cross_signal_columns df2 fast slow close Hsame)
      as (df2' & Hf2 & Hs2 & ->).
    rewrite !(getitem_Some _ _ _ Hf1), !(getitem_Some _ _ _ Hs1),
      !(getitem_Some _ _ _ Hf2), !(getitem_Some _ _ _ Hs2).
    reflexivity.
  - symmetry in Hsame. unfold sma_cross_signal. cbv zeta.
    rewrite (getitem_None _ _ Hclose1), (getitem_None _ _ Hsame). reflexivity.
Qed.

(** Four closes, with and without a stale "sma_2" column. *)
Lemma sma_cross_signal_reads_close_only_witness :
  sma_cross_signal {[ "close" := [1; 2; 3; 2]; "sma_2" := [9; 9; 9; 9] ]} 2 3
  = sma_cross_signal {[ "close" := [1; 2; 3; 2] ]} 2 3.
Proof.
  apply sma_cross_signal_reads_close_only. vm_compute. reflexivity.
Defined.

(** X16: the dashboard and the trading loop never disagree. On one frame
    [compute_smas] followed by [latest_signal_reason] and
    [sma_cross_signal] raise the same exception or both answer, and then
    "buy" goes with "buy", "sell" with "sell", and the dashboard's "none"
    with the loop's "hold" or, exactly when the reason is "Not enough
    data", with its [None]. *)
Theorem detectors_agree (df : DataFrame) (fast slow : nat) :
  match Dashboard.latest_signal df fast slow, sma_cross_signal df fast slow with
  | Ok (signal, reason, _), Ok cross =>
      (signal = "buy" <-> cross = Some "buy")
      /\ (signal = "sell" <-> cross = Some "sell")
      /\ (signal = "none" <-> cross = None \/ cross = Some "hold")
      /\ (reason = "Not enough data" <-> cross = None)
  | Raise e, Raise e' => e = e'
  | _, _ => False
  end.
Proof.
  unfold Dashboard.latest_signal.
  destruct (df !! "close") as [close|] eqn:Hclose.
  2: { unfold compute_smas, sma_cross_signal. cbv zeta.
       rewrite (getitem_None _ _ Hclose). reflexivity. }
  rewrite (compute_smas_Ok df fast slow close Hclose), bind_Ok.
  destruct (lookup_sma_columns "SMA" (fun w => rolling_mean w close) df fast slow)
    as [Hf Hs].
  destruct (sma_cross_signal_columns df fast slow close Hclose)
    as (df' & Hf' & Hs' & ->).
  unfold latest_signal_reason. cbv zeta.
  rewrite !(getitem_Some _ _ _ Hf), !(getitem_Some _ _ _ Hs),
    !(getitem_Some _ _ _ Hf'), !(getitem_Some _ _ _ Hs'), !bind_Ok.
  destruct (iloc (rolling_mean slow close) (-1)) as [cs|e] eqn:Hcs;
    [|reflexivity].
  rewrite !bind_Ok. destruct (is_nan cs).
  { cbn. repeat split; intros; try discriminate; auto. }
  destruct (iloc (rolling_mean fast close) (-2)) as [pf|e] eqn:Hpf;
    [|reflexivity].
  rewrite !bind_Ok.
  destruct (iloc (rolling_mean slow close) (-2)) as [ps|e] eqn:Hps;
    [|reflexivity].
  rewrite !bind_Ok.
  destruct (iloc (rolling_mean fast close) (-1)) as [cf|e] eqn:Hcf;
    [|reflexivity].
  rewrite ?bind_Ok, ?Hcs, ?bind_Ok.
  destruct ((pf <=? ps) && (cs <? cf));
    [|destruct ((ps <=? pf) && (cf <? cs))];
    cbn; repeat split; intros; try discriminate; auto;
    try (destruct H; discriminate).
Qed.

Lemma eps_signed : signed false (Prim2SF 1e-9).
Proof. rewrite Prim2SF_eps. reflexivity. Qed.

Lemma separation_not_negative (cf cs : float) : (separation cf cs <? 0) = false.
Proof.
  apply signed_false_not_negative. unfold separation. rewrite div_spec.
  apply (SFdiv_signs false false).
  - apply abs_signed.
  - apply max_signed; [apply abs_signed|apply eps_signed].
Qed.

Ltac invert_reads H :=
  repeat first
    [ rewrite bind_Ok in H
    | match goal with
      | E : getitem ?d ?k = _ |- _ => rewrite E in H
      | E : iloc ?s ?i = _ |- _ => rewrite E in H
      end
    | match type of H with
      | context [getitem ?d ?k] =>
          destruct (getitem d k) eqn:?; [|discriminate H]
      | context [iloc ?s ?i] =>
          destruct (iloc s i) eqn:?; [|discriminate H]
      end ].

(** X17: the confidence the detectors return is never negative: it is 0,
    or a quotient of an absolute value by [max(|currSlow|, 1e-9)] (which
    is never 0), so [confidence < 0] is false on every frame and for all
    windows. *)
Theorem confidence_not_negative (df : DataFrame) (fast slow : nat) :
  (forall (signal reason : string) (confidence : float),
     latest_signal_reason df fast slow = Ok (signal, reason, confidence) ->
     (confidence <? 0) = false)
  /\ (forall (reason : string) (confidence : float),
        describe_sma_signal df fast slow = Ok (reason, confidence) ->
        (confidence <? 0) = false)
  /\ (forall x : float, (PyFloat.max (abs x) 1e-9 =? 0) = false).
Proof.
  split; [|split].
  - intros signal reason confidence H. unfold latest_signal_reason in H.
    cbv zeta in H. invert_reads H.
    destruct (is_nan _); [injection H as _ _ <-; reflexivity|].
    invert_reads H.
    destruct (_ && _); [|destruct (_ && _)]; injection H as _ _ <-;
      apply separation_not_negative.
  - intros reason confidence H. unfold describe_sma_signal in H.
    cbv zeta in H. invert_reads H.
    destruct (is_nan _); [injection H as _ <-; reflexivity|].
    invert_reads H.
    destruct (_ && _); [|destruct (_ && _)]; injection H as _ <-;
      apply separation_not_negative.
  - apply max_eps_not_zero.
Qed.

(** Closes 1, 2, 3 read with windows 2 and 3: confidence 0.25. *)
Lemma confidence_not_negative_witness : (0.25 <? 0) = false.
Proof.
  apply (proj1 (confidence_not_negative
                  {[ "SMA2" := [nan; 1.5; 2.5]; "SMA3" := [nan; nan; 2] ]} 2 3)
           "none" "HOLD — SMA(2) is above SMA(3); no crossover" 0.25).
  vm_compute. reflexivity.
Defined.




End DetectorFacts.

(** ** The backtest *)

Module BacktestFacts.
Import Strategy Main Crossover Backtest PyFloatFacts StrategyFacts Traces.
Local Open Scope float_scope.

#[local] Arguments iloc : simpl never.
#[local] Arguments rolling_mean : simpl never.

Lemma alternating_snoc (xs : list string) (x : string) :
  alternating xs -> (forall a, last xs = Some a -> a <> x) ->
  alternating (xs ++ [x]).
Proof.
  induction xs as [|a [|b xs] IH]; intros Halt Hlast.
  - exact I.
  - cbn. split; [apply Hlast; reflexivity|exact I].
  - destruct Halt as [Hab Halt]. split; [exact Hab|].
    apply IH; [exact Halt|]. intros c Hc. apply Hlast.
    rewrite last_cons_cons. exact Hc.
Qed.

Lemma rows_increase_snoc (signals : list Signal) (x : Signal) :
  rows_increase signals -> Forall (fun s => (row s < row x)%nat) signals ->
  rows_increase (signals ++ [x]).
Proof.
  intros Hinc Hall j k a b Hjk Ha Hb.
  destruct (decide (k < length signals)%nat) as [Hk|Hk].
  - rewrite lookup_app_l in Ha, Hb by lia. exact (Hinc j k a b Hjk Ha Hb).
  - rewrite (lookup_app_r signals [x] k) in Hb by lia.
    destruct (k - length signals)%nat as [|k'] eqn:Hk'; [|destruct k'; discriminate].
    injection Hb as <-.
    rewrite lookup_app_l in Ha by lia.
    rewrite Forall_forall in Hall. apply Hall.
    apply list_elem_of_lookup. eauto.
Qed.

Lemma iloc_at (s : list float) (i : nat) (x : float) :
  s !! i = Some x -> iloc s (Z.of_nat i) = Ok x.
Proof.
  intros Hx. pose proof (lookup_lt_Some _ _ _ Hx) as Hi. unfold iloc. cbv zeta.
  replace (Z.of_nat i <? 0)%Z with false by (symmetry; apply Z.ltb_ge; lia).
  replace (0 <=? Z.of_nat i)%Z with true by (symmetry; apply Z.leb_le; lia).
  replace (Z.of_nat i <? Z.of_nat (length s))%Z with true
    by (symmetry; apply Z.ltb_lt; lia).
  rewrite Nat2Z.id, Hx. reflexivity.
Qed.

Lemma iloc_before (s : list float) (i : nat) :
  (i < length s)%nat -> exists x, iloc s (Z.of_nat i - 1) = Ok x.
Proof.
  intros Hi. destruct i as [|i].
  - destruct (lookup_lt_is_Some_2 s (length s - 1)) as [x Hx]; [lia|].
    exists x. apply (iloc_from_end s 1 x); [lia|exact Hx].
  - destruct (lookup_lt_is_Some_2 s i) as [x Hx]; [lia|].
    exists x. replace (Z.of_nat (S i) - 1)%Z with (Z.of_nat i) by lia.
    apply iloc_at, Hx.
Qed.

Lemma backtest_inv_next (F S close : list float) (slow i : nat)
    (st : list Signal * Z) :
  backtest_inv F S close slow i st -> backtest_inv F S close slow (Datatypes.S i) st.
Proof.
  intros (Halt & Hlast & Hgood & Hrows & Hinc). repeat split; auto.
  eapply Forall_impl; [exact Hrows|]. cbn. intros; lia.
Qed.

Lemma backtest_inv_record (F S close : list float) (slow i : nat)
    (signals : list Signal) (position position' : Z) (x : Signal) :
  backtest_inv F S close slow i (signals, position) ->
  row x = i -> recorded_crossing F S close slow x ->
  (side x = "BUY" /\ (position <= 0)%Z /\ position' = 1%Z)
  \/ (side x = "SELL" /\ (0 <= position)%Z /\ position' = (-1)%Z) ->
  backtest_inv F S close slow (Datatypes.S i) (signals ++ [x], position').
Proof.
  intros (Halt & Hlast & Hgood & Hrows & Hinc) Hrow Hx Hside.
  cbn [fst snd] in *. unfold backtest_inv. cbn [fst snd].
  split; [|split; [|split; [|split]]].
  - rewrite fmap_app. apply alternating_snoc; [exact Halt|].
    intros a Ha. rewrite fmap_last in Ha.
    destruct (last signals) as [s0|]; [|discriminate Ha].
    injection Ha as <-.
    destruct Hlast as [[Hs Hp]|[Hs Hp]], Hside as [(Hx' & Hq & _)|(Hx' & Hq & _)];
      try lia; rewrite Hs, Hx'; discriminate.
  - rewrite last_snoc. destruct Hside as [(? & _ & ?)|(? & _ & ?)]; auto.
  - apply Forall_app. split; [exact Hgood|]. constructor; [exact Hx|constructor].
  - apply Forall_app. split.
    + eapply Forall_impl; [exact Hrows|]. cbn. intros; lia.
    + constructor; [lia|constructor].
  - apply rows_increase_snoc; [exact Hinc|]. rewrite Hrow. exact Hrows.
Qed.

Lemma backtest_row_inv (df : DataFrame) (fast slow : nat) (F S close : list float)
    (i : nat) (st : list Signal * Z) :
  df !! ("sma_" +:+ pretty fast) = Some F ->
  df !! ("sma_" +:+ pretty slow) = Some S ->
  df !! "close" = Some close ->
  length F = length close -> length S = length close ->
  (slow <= i < length close)%nat ->
  backtest_inv F S close slow i st ->
  exists st' : list Signal * Z,
    backtest_row df fast slow st i = Ok st'
    /\ backtest_inv F S close slow (Datatypes.S i) st'.
Proof.
  intros Hf Hs Hc HlenF HlenS Hi Hinv. destruct st as [signals position].
  destruct (lookup_lt_is_Some_2 F i) as [cf Hcf]; [lia|].
  destruct (lookup_lt_is_Some_2 S i) as [cs Hcs]; [lia|].
  destruct (lookup_lt_is_Some_2 close i) as [p Hp]; [lia|].
  destruct (iloc_before F i) as [pf Hpf]; [lia|].
  destruct (iloc_before S i) as [ps Hps]; [lia|].
  unfold backtest_row. cbv zeta.
  rewrite !(getitem_Some _ _ _ Hf), !(getitem_Some _ _ _ Hs),
    !(getitem_Some _ _ _ Hc), !bind_Ok.
  rewrite (iloc_at _ _ _ Hcs), !bind_Ok, Hpf, !bind_Ok, Hps, !bind_Ok.
  rewrite (iloc_at _ _ _ Hcf), !bind_Ok, ?(iloc_at _ _ _ Hcs), !bind_Ok.
  rewrite (iloc_at _ _ _ Hp), !bind_Ok.
  assert (Hgood : forall sd : string,
             (sd = "BUY" /\ crossed_above pf ps cf cs = true)
             \/ (sd = "SELL" /\ crossed_below pf ps cf cs = true) ->
             recorded_crossing F S close slow
               {| row := i; side := sd; price := p;
                  sma_fast := cf; sma_slow := cs |}).
  { intros sd Hsd. unfold recorded_crossing. cbn.
    repeat split; try lia; try assumption. exists pf, ps. auto. }
  fold (crossed_above pf ps cf cs). fold (crossed_below pf ps cf cs).
  assert (Hbuy : crossed_above pf ps cf cs = true -> (position <= 0)%Z ->
                 backtest_inv F S close slow (Datatypes.S i)
                   (signals ++ [ {| row := i; side := "BUY"; price := p;
                                    sma_fast := cf; sma_slow := cs |} ], 1%Z)).
  { intros Habove Hpos.
    apply (backtest_inv_record F S close slow i signals position);
      [exact Hinv|reflexivity| |].
    - apply Hgood. left. split; [reflexivity|exact Habove].
    - left. repeat split. exact Hpos. }
  assert (Hsell : crossed_below pf ps cf cs = true -> (0 <= position)%Z ->
                  backtest_inv F S close slow (Datatypes.S i)
                    (signals ++ [ {| row := i; side := "SELL"; price := p;
                                     sma_fast := cf; sma_slow := cs |} ], (-1)%Z)).
  { intros Hbelow Hpos.
    apply (backtest_inv_record F S close slow i signals position);
      [exact Hinv|reflexivity| |].
    - apply Hgood. right. split; [reflexivity|exact Hbelow].
    - right. repeat split. exact Hpos. }
  pose proof (backtest_inv_next F S close slow i _ Hinv) as Hskip.
  destruct (crossed_above pf ps cf cs);
    destruct (crossed_below pf ps cf cs);
    destruct (Z.leb_spec position 0); destruct (Z.leb_spec 0 position);
    cbn [andb]; eexists; (split; [reflexivity|]); auto.
Qed.

Lemma foldM_backtest_inv (df : DataFrame) (fast slow : nat) (F S close : list float) :
  df !! ("sma_" +:+ pretty fast) = Some F ->
  df !! ("sma_" +:+ pretty slow) = Some S ->
  df !! "close" = Some close ->
  length F = length close -> length S = length close ->
  forall (len start : nat) (st : list Signal * Z),
    (slow <= start)%nat -> (start + len <= length close)%nat ->
    backtest_inv F S close slow start st ->
    exists st' : list Signal * Z,
      foldM (backtest_row df fast slow) st (seq start len) = Ok st'
      /\ backtest_inv F S close slow (start + len) st'.
Proof.
  intros Hf Hs Hc HlenF HlenS.
  induction len as [|len IH]; intros start st Hstart Hend Hinv.
  - exists st. rewrite Nat.add_0_r. split; [reflexivity|exact Hinv].
  - cbn [seq foldM].
    destruct (backtest_row_inv df fast slow F S close start st
                Hf Hs Hc HlenF HlenS) as (st1 & -> & Hinv1); [lia|exact Hinv|].
    rewrite bind_Ok.
    destruct (IH (Datatypes.S start) st1) as (st' & Hfold & Hinv');
      [lia|lia|exact Hinv1|].
    exists st'. split; [exact Hfold|].
    replace (start + Datatypes.S len)%nat with (Datatypes.S start + len)%nat by lia.
    exact Hinv'.
Qed.

Lemma backtest_result (fast slow : nat) (df : DataFrame) (close : list float) :
  df !! "close" = Some close ->
  exists (signals : list Signal) (position : Z) (i : nat),
    backtest_strategy_at fast slow df = Ok signals
    /\ backtest_inv (rolling_mean fast close) (rolling_mean slow close) close slow
         i (signals, position).
Proof.
  intros Hclose. unfold backtest_strategy_at.
  rewrite (getitem_Some _ _ _ Hclose), bind_Ok. cbv zeta.
  rewrite (getitem_Some _ "close" close)
    by (rewrite lookup_insert_ne; [exact Hclose|apply sma_column_not_close]).
  rewrite bind_Ok.
  destruct (lookup_sma_columns "sma_" (fun w => rolling_mean w close) df fast slow)
    as [Hf Hs].
  match goal with |- context [backtest_row ?d fast slow] => set (df2 := d) in * end.
  assert (Hclose2 : df2 !! "close" = Some close).
  { unfold df2. rewrite !lookup_insert_ne; [exact Hclose| |];
      apply sma_column_not_close. }
  destruct (decide (slow <= length close)%nat) as [Hle|Hgt].
  - destruct (foldM_backtest_inv df2 fast slow _ _ close Hf Hs Hclose2
                (length_rolling_mean fast close) (length_rolling_mean slow close)
                (length close - slow) slow ([], 0%Z))
      as ([signals position] & -> & Hinv); [lia|lia| |].
    { repeat split; try constructor. intros j k a b _ Ha. discriminate Ha. }
    rewrite bind_Ok. exists signals, position, (slow + (length close - slow))%nat.
    split; [reflexivity|exact Hinv].
  - replace (length close - slow)%nat with 0%nat by lia. cbn [seq foldM].
    rewrite bind_Ok. exists [], 0%Z, slow. split; [reflexivity|].
    repeat split; try constructor. intros j k a b _ Ha. discriminate Ha.
Qed.

(** X19: on every frame with a "close" column the backtest runs to its end
    without an exception, and the signals it records alternate: each is
    "BUY" or "SELL", and no two neighbours have the same side. Without a
    "close" column it raises [KeyError]. *)
Theorem backtest_signals_alternate (fast slow : nat) (df : DataFrame) :
  match backtest_strategy_at fast slow df with
  | Ok signals =>
      is_Some (df !! "close")
      /\ alternating (side <$> signals)
      /\ Forall (fun s => side s = "BUY" \/ side s = "SELL") signals
  | Raise e => e = KeyError "close" /\ df !! "close" = None
  end.
Proof.
  destruct (df !! "close") as [close|] eqn:Hclose.
  - destruct (backtest_result fast slow df close Hclose)
      as (signals & position & i & -> & Halt & _ & Hgood & _).
    split; [eauto|]. split; [exact Halt|].
    eapply Forall_impl; [exact Hgood|]. cbn.
    intros s (_ & _ & _ & _ & pf & ps & _ & _ & [[H _]|[H _]]); auto.
  - unfold backtest_strategy_at.
    assert (getitem df "close" = Raise (KeyError "close")) as ->
      by (unfold getitem; rewrite Hclose; reflexivity).
    split; reflexivity.
Qed.



Lemma iloc_inv (s : list float) (j : Z) (x : float) :
  (0 <= j)%Z -> iloc s j = Ok x -> s !! Z.to_nat j = Some x.
Proof.
  intros Hj. unfold iloc. cbv zeta.
  replace (j <? 0)%Z with false by (symmetry; apply Z.ltb_ge; lia).
  destruct (_ && _); [|discriminate].
  destruct (s !! Z.to_nat j); [|discriminate]. congruence.
Qed.

Lemma ltb_not_nan (x y : float) : (x <? y) = true -> is_nan x = false.
Proof.
  rewrite ltb_spec, is_nan_spec. unfold SFltb.
  destruct (Prim2SF x); try reflexivity. discriminate.
Qed.

(** X21: the backtest and the live detector agree on the latest bar. When
    the backtest records a signal at the last row of a frame (slow window
    of 1 or more), [sma_cross_signal] on that frame answers the same side. *)
Theorem backtest_last_row_matches_detector (fast slow : nat) (df : DataFrame)
    (close : list float) (signals : list Signal) (s : Signal) :
  df !! "close" = Some close ->
  (1 <= slow)%nat ->
  backtest_strategy_at fast slow df = Ok signals ->
  s ∈ signals ->
  row s = (length close - 1)%nat ->
  sma_cross_signal df fast slow = Ok (Some (live_word (side s))).
Proof.
  intros Hclose Hslow Hrun Hin Hrow.
  destruct (backtest_result fast slow df close Hclose)
    as (signals' & position & i & Hrun' & _ & _ & Hgood & _ & _).
  rewrite Hrun in Hrun'. injection Hrun' as <-.
  rewrite Forall_forall in Hgood.
  destruct (Hgood s Hin) as (Hrange & _ & Hcf & Hcs & pf & ps & Hpf & Hps & Hside).
  rewrite Hrow in *.
  assert (Hlen : (2 <= length close)%nat) by lia.
  replace (Z.of_nat (length close - 1) - 1)%Z
    with (Z.of_nat (length close - 2)) in Hpf, Hps by lia.
  apply iloc_inv in Hpf; [|lia]. apply iloc_inv in Hps; [|lia].
  rewrite Nat2Z.id in Hpf, Hps.
  assert (Hpf' : iloc (rolling_mean fast close) (-2) = Ok pf)
    by (apply iloc_prev; rewrite length_rolling_mean; assumption).
  assert (Hps' : iloc (rolling_mean slow close) (-2) = Ok ps)
    by (apply iloc_prev; rewrite length_rolling_mean; assumption).
  assert (Hcf' : iloc (rolling_mean fast close) (-1) = Ok (sma_fast s))
    by (apply iloc_last; rewrite length_rolling_mean; [lia|assumption]).
  assert (Hcs' : iloc (rolling_mean slow close) (-1) = Ok (sma_slow s))
    by (apply iloc_last; rewrite length_rolling_mean; [lia|assumption]).
  assert (Hnan : is_nan (sma_slow s) = false).
  { destruct Hside as [[_ H]|[_ H]]; unfold crossed_above, crossed_below in H;
      apply andb_prop in H as [_ H].
    - exact (ltb_not_nan _ _ H).
    - pose proof (ltb_asym _ _ H) as H'. rewrite is_nan_spec.
      rewrite ltb_spec in H. unfold SFltb in H.
      destruct (Prim2SF (sma_slow s)); try reflexivity.
      destruct (Prim2SF (sma_fast s)); discriminate H. }
  rewrite (sma_cross_signal_defined df fast slow close _ _ _ _
             Hclose Hpf' Hps' Hcf' Hcs' Hnan).
  unfold live_word. destruct Hside as [[-> Habove]|[-> Hbelow]].
  - rewrite Habove. reflexivity.
  - pose proof (crossed_exclusive pf ps (sma_fast s) (sma_slow s)) as Hex.
    destruct (crossed_above pf ps (sma_fast s) (sma_slow s)).
    + rewrite Hex in Hbelow by reflexivity. discriminate Hbelow.
    + rewrite Hbelow. reflexivity.
Qed.

(** Closes 1, 2, 3, 4, 5, 4, 3 with windows 2 and 4: the backtest ends on a
    "SELL" at the last row, and the live detector says "sell". *)
Lemma backtest_last_row_matches_detector_witness :
  sma_cross_signal {[ "close" := [1; 2; 3; 4; 5; 4; 3] ]} 2 4
  = Ok (Some (live_word "SELL")).
Proof.
  apply (backtest_last_row_matches_detector 2 4
           {[ "close" := [1; 2; 3; 4; 5; 4; 3] ]} [1; 2; 3; 4; 5; 4; 3]
           [ {| row := 6; side := "SELL"; price := 3;
                sma_fast := 3.5; sma_slow := 4 |} ]
           {| row := 6; side := "SELL"; price := 3;
              sma_fast := 3.5; sma_slow := 4 |}).
  - vm_compute. reflexivity.
  - lia.
  - vm_compute. reflexivity.
  - left.
  - reflexivity.
Defined.

End BacktestFacts.
